(** * schoolCourses-v1: the REST API's authentication gate, ownership checks
    and course/user routes (src/routes/user.js, src/routes/course.js and the
    Sequelize models), embedded in Rocq.

    Effects are modelled with a state/error monad [M]: the state is the
    database (the [Users] and [Courses] tables with their [sqlite_sequence]
    entries) together with an event log (storage calls and console output);
    the error side is a rejected promise (a thrown JS error). *)

From Stdlib Require Import String Ascii List ZArith Bool Lia DecimalString.
Import ListNotations.
Open Scope string_scope.

(** ** Data model (models/user.js, models/course.js)

    Timestamps ([createdAt], [updatedAt]) are not modelled. *)

Record User := mkUser {
  u_id : Z;
  firstName : string;
  lastName : string;
  emailAddress : string;
  password : string
}.

Record Course := mkCourse {
  c_id : Z;
  title : string;
  description : string;
  estimatedTime : option string;
  materialsNeeded : option string;
  userId : Z
}.

(** The object returned by the [basic-auth] package: [auth(req)] is
    [undefined] (here [None]) when the Authorization header is absent or
    malformed (no "Basic" scheme, or no colon in the decoded pair). *)
Record credentials := mkCred { name : string; pass : string }.

(** A thrown JS error: its [name] and [message]. *)
Record fault := mkFault { f_name : string; f_message : string }.

(** A property of a parsed JSON body: [undefined], [null], or a value. *)
Inductive field (A : Type) :=
| Absent
| Null
| Val (a : A).
Arguments Absent {A}.
Arguments Null {A}.
Arguments Val {A} a.

(** The assignments of an [UPDATE Courses SET ...] statement. *)
Inductive assign :=
| SetId (k : option Z)
| SetTitle (t : string)
| SetDescription (d : string)
| SetEstimatedTime (e : option string)
| SetMaterialsNeeded (m : option string)
| SetUserId (u : Z).

(** Observable events: storage calls and console output. *)
Inductive event :=
| EUserFindOne (email : string)
| EUserCreate (u : User)
| ECourseFindAll
| ECourseFindByPk (id : Z)
| ECourseCreate (c : Course)
| ECourseUpdate (key : option Z) (changes : list assign)
| ECourseDestroy (id : Z)
| EInfo (msg : string)
| EWarn (msg : string).

(** The database: both tables, the [sqlite_sequence] value of each
    AUTOINCREMENT table (the largest key it ever held), and the log. *)
Record db := mkDb {
  users : list User;
  courses : list Course;
  user_seq : Z;
  course_seq : Z;
  log : list event
}.

(** ** A state and error monad *)

Definition M (A : Type) : Type := db -> (fault + A) * db.

Definition ret {A} (a : A) : M A := fun s => (inr a, s).

Definition bind {A B} (m : M A) (k : A -> M B) : M B :=
  fun s => match m s with
           | (inl f, s') => (inl f, s')
           | (inr a, s') => k a s'
           end.

Notation "x <- m ;; k" := (bind m (fun x => k))
  (at level 61, m at next level, right associativity).
Notation "m ;;; k" := (bind m (fun _ => k))
  (at level 61, right associativity).

Definition throw {A} (f : fault) : M A := fun s => (inl f, s).

(** [try { m } catch (e) { h(e) }] *)
Definition catch {A} (m : M A) (h : fault -> M A) : M A :=
  fun s => match m s with
           | (inl f, s') => h f s'
           | (inr a, s') => (inr a, s')
           end.

Definition of_sum {A} (r : fault + A) : M A :=
  match r with inl f => throw f | inr a => ret a end.

Definition emit (e : event) : M unit :=
  fun s => (inr tt, mkDb (users s) (courses s) (user_seq s) (course_seq s) (log s ++ [e])%list).

Definition get_db : M db := fun s => (inr s, s).

(** [INSERT] of a row: appended to its table, and the table's
    [sqlite_sequence] value raised to the row's key. *)
Definition insert_user (u : User) : M unit :=
  fun s => (inr tt, mkDb (users s ++ [u])%list (courses s) (Z.max (user_seq s) (u_id u))
                         (course_seq s) (log s)).

Definition insert_course (c : Course) : M unit :=
  fun s => (inr tt, mkDb (users s) (courses s ++ [c])%list (user_seq s)
                         (Z.max (course_seq s) (c_id c)) (log s)).

(** [UPDATE] or [DELETE] on the Courses table. *)
Definition set_courses (cs : list Course) : M unit :=
  fun s => (inr tt, mkDb (users s) cs (user_seq s) (course_seq s) (log s)).

Definition console_info (m : string) : M unit := emit (EInfo m).
Definition console_warn (m : string) : M unit := emit (EWarn m).

(** ** HTTP responses *)

Record user_view := mkUserView {
  uv_id : Z; uv_firstName : string; uv_lastName : string; uv_emailAddress : string
}.

(** A course as serialised by [findAll]/[findByPk] with its [include]d
    owner ([null] when no user has the course's [userId]). *)
Record course_view := mkCourseView {
  cv_id : Z; cv_title : string; cv_description : string;
  cv_estimatedTime : option string; cv_materialsNeeded : option string;
  cv_userId : Z; cv_User : option user_view
}.

Inductive body :=
| BNone                              (* res.end() *)
| BMessage (m : string)              (* { message: m } *)
| BErrors (l : list string)          (* { errors: l } *)
| BUser (v : user_view)
| BCourses (l : list course_view)
| BCourse (v : course_view)
| BError (f : fault).                (* res.send(error) *)

Record response := mkResponse { status : Z; location : option string; rbody : body }.

Definition json (st : Z) (b : body) : response := mkResponse st None b.
Definition end_ (st : Z) : response := mkResponse st None BNone.

(** ** Strings as JS has them *)

Definition string_of_nat (n : nat) : string := NilZero.string_of_uint (Nat.to_uint n).
Definition string_of_Z (z : Z) : string := NilZero.string_of_int (Z.to_int z).

(** [s.charAt(n)]: the one-character string at [n], or "" past the end. *)
Definition char_at (n : nat) (s : string) : string := substring n 1 s.

(** [String.fromCharCode(0)] *)
Definition nul : string := String "000"%char EmptyString.

Definition dq : string := String (ascii_of_nat 34) EmptyString.
Definition nl : string := String (ascii_of_nat 10) EmptyString.

(** [l.join(sep)] *)
Fixpoint join (sep : string) (l : list string) : string :=
  match l with
  | [] => EmptyString
  | [x] => x
  | x :: l' => x ++ sep ++ join sep l'
  end.

(** [String.prototype.toLowerCase] on ASCII. *)
Definition lower_ascii (c : ascii) : ascii :=
  let n := nat_of_ascii c in
  if (65 <=? n)%nat && (n <=? 90)%nat then ascii_of_nat (n + 32) else c.

Fixpoint lower (s : string) : string :=
  match s with
  | EmptyString => EmptyString
  | String c s' => String (lower_ascii c) (lower s')
  end.

(** ** bcryptjs (dist/bcrypt.js): base64, [_hash], [genSaltSync],
    [hashSync], [compareSync] *)

Definition BASE64_CODE : string :=
  "./ABCDEFGHIJKLMNOPQRSTUVWXYZabcdefghijklmnopqrstuvwxyz0123456789".

Definition BASE64_INDEX : list Z :=
  [-1; -1; -1; -1; -1; -1; -1; -1; -1; -1; -1; -1; -1; -1; -1; -1; -1; -1; -1;
   -1; -1; -1; -1; -1; -1; -1; -1; -1; -1; -1; -1; -1; -1; -1; -1; -1; -1; -1;
   -1; -1; -1; -1; -1; -1; -1; -1; 0; 1; 54; 55; 56; 57; 58; 59; 60; 61; 62;
   63; -1; -1; -1; -1; -1; -1; -1; 2; 3; 4; 5; 6; 7; 8; 9; 10; 11; 12; 13; 14;
   15; 16; 17; 18; 19; 20; 21; 22; 23; 24; 25; 26; 27; -1; -1; -1; -1; -1; -1;
   28; 29; 30; 31; 32; 33; 34; 35; 36; 37; 38; 39; 40; 41; 42; 43; 44; 45; 46;
   47; 48; 49; 50; 51; 52; 53; -1; -1; -1; -1; -1]%Z.

(** [BASE64_CODE[i]] *)
Definition code_char (i : Z) : ascii :=
  match String.get (Z.to_nat i) BASE64_CODE with Some c => c | None => "000"%char end.

(** The loop of [base64_encode(b, len)] on the first [len] bytes. *)
Fixpoint b64_encode_loop (b : list Z) : list ascii :=
  match b with
  | [] => []
  | [x] =>
      let c1 := Z.land x 255 in
      [code_char (Z.land (Z.shiftr c1 2) 63);
       code_char (Z.land (Z.shiftl (Z.land c1 3) 4) 63)]
  | [x; y] =>
      let c1 := Z.land x 255 in
      let c2 := Z.land y 255 in
      [code_char (Z.land (Z.shiftr c1 2) 63);
       code_char (Z.land (Z.lor (Z.shiftl (Z.land c1 3) 4) (Z.land (Z.shiftr c2 4) 15)) 63);
       code_char (Z.land (Z.shiftl (Z.land c2 15) 2) 63)]
  | x :: y :: z :: rest =>
      let c1 := Z.land x 255 in
      let c2 := Z.land y 255 in
      let c3 := Z.land z 255 in
      code_char (Z.land (Z.shiftr c1 2) 63) ::
      code_char (Z.land (Z.lor (Z.shiftl (Z.land c1 3) 4) (Z.land (Z.shiftr c2 4) 15)) 63) ::
      code_char (Z.land (Z.lor (Z.shiftl (Z.land c2 15) 2) (Z.land (Z.shiftr c3 6) 3)) 63) ::
      code_char (Z.land c3 63) :: b64_encode_loop rest
  end.

(** [base64_encode(b, len)] *)
Definition base64_encode (b : list Z) (len : nat) : fault + string :=
  if (len =? 0)%nat || (length b <? len)%nat
  then inl (mkFault "Error" ("Illegal len: " ++ string_of_nat len))
  else inr (string_of_list_ascii (b64_encode_loop (firstn len b))).

(** [code < BASE64_INDEX.length ? BASE64_INDEX[code] : -1] *)
Definition b64_index (code : Z) : Z :=
  if (code <? 128)%Z then nth (Z.to_nat code) BASE64_INDEX (-1)%Z else (-1)%Z.

(** [s.charCodeAt(off)] *)
Definition char_code (c : ascii) : Z := Z.of_nat (nat_of_ascii c).

(** [String.fromCharCode(o).charCodeAt(0)] *)
Definition utf16 (o : Z) : Z := (o mod 65536)%Z.

(** The loop of [base64_decode(s, len)]: [s] is the rest of the string from
    [off], [olen] the number of bytes produced so far. *)
Fixpoint b64_decode_loop (s : list ascii) (olen len : nat) : list Z :=
  match s with
  | a :: b :: rest =>
      if (olen <? len)%nat then
        let c1 := b64_index (char_code a) in
        let c2 := b64_index (char_code b) in
        if (c1 =? -1)%Z || (c2 =? -1)%Z then []
        else
          utf16 (Z.lor (Z.shiftl c1 2) (Z.shiftr (Z.land c2 48) 4)) ::
          (if (len <=? S olen)%nat then []
           else
             match rest with
             | [] => []
             | c :: rest' =>
                 let c3 := b64_index (char_code c) in
                 if (c3 =? -1)%Z then []
                 else
                   utf16 (Z.lor (Z.shiftl (Z.land c2 15) 4) (Z.shiftr (Z.land c3 60) 2)) ::
                   (if (len <=? S (S olen))%nat then []
                    else
                      match rest' with
                      | [] => []
                      | d :: rest'' =>
                          let c4 := b64_index (char_code d) in
                          utf16 (Z.lor (Z.shiftl (Z.land c3 3) 6) c4) ::
                          b64_decode_loop rest'' (S (S (S olen))) len
                      end)
             end)
      else []
  | _ => []
  end.

(** [base64_decode(s, len)] (always called with [len = 16 > 0]). *)
Definition base64_decode (s : string) (len : nat) : list Z :=
  b64_decode_loop (list_ascii_of_string s) 0 len.

(** [parseInt(c, 10)] of a string of at most one character; [None] is NaN. *)
Definition parse_digit (c : string) : option Z :=
  match c with
  | String a EmptyString =>
      let n := nat_of_ascii a in
      if (48 <=? n)%nat && (n <=? 57)%nat then Some (Z.of_nat n - 48)%Z else None
  | _ => None
  end.

(** [c > '$'] and [c >= 'a'] for a string [c] of at most one character. *)
Definition gt_dollar (c : string) : bool :=
  match c with String a _ => (36 <? nat_of_ascii a)%nat | EmptyString => false end.

Definition ge_a (c : string) : bool :=
  match c with String a _ => (97 <=? nat_of_ascii a)%nat | EmptyString => false end.

(** The number of rounds, [None] being NaN. *)
Definition rounds_to_string (r : option Z) : string :=
  match r with Some z => string_of_Z z | None => "NaN" end.

Definition rounds_lt10 (r : option Z) : bool :=
  match r with Some z => (z <? 10)%Z | None => false end.

(** [rounds < 4 || rounds > 31] (false for NaN). *)
Definition illegal_rounds (r : option Z) : bool :=
  match r with Some z => (z <? 4)%Z || (31 <? z)%Z | None => false end.

Definition js_error (m : string) : fault := mkFault "Error" m.

(** [typeof v] for a body property holding a string. *)
Definition typeof (v : field string) : string :=
  match v with Absent => "undefined" | Null => "object" | Val _ => "string" end.

(** ** Storage (Sequelize over SQLite) *)

Fixpoint find_user (email : string) (us : list User) : option User :=
  match us with
  | [] => None
  | u :: us' => if String.eqb (emailAddress u) email then Some u
                else find_user email us'
  end.

Fixpoint find_course (id : Z) (cs : list Course) : option Course :=
  match cs with
  | [] => None
  | c :: cs' => if Z.eqb (c_id c) id then Some c else find_course id cs'
  end.

Fixpoint find_user_by_id (id : Z) (us : list User) : option User :=
  match us with
  | [] => None
  | u :: us' => if Z.eqb (u_id u) id then Some u else find_user_by_id id us'
  end.

Definition max_key (ks : list Z) : option Z :=
  match ks with [] => None | k :: ks' => Some (fold_left Z.max ks' k) end.

(** The key SQLite gives a row inserted without one into an AUTOINCREMENT
    table: one more than the largest key in the table (1 for an empty
    table), and more than the [sqlite_sequence] value [seq], so a key once
    used is never given again. (Keys are unbounded here; SQLite stops at
    2^63 - 1.) *)
Definition next_rowid (seq : Z) (ks : list Z) : Z :=
  Z.max (match max_key ks with None => 1 | Some m => m + 1 end) (seq + 1).

(** The primary key sent in an [INSERT]: Sequelize leaves the column out
    when the value is [null] or [undefined]. *)
Definition explicit_key (v : field Z) : option Z :=
  match v with Val k => Some k | _ => None end.

(** A nullable column: [undefined] and [null] both store NULL. *)
Definition nullable (v : field string) : option string :=
  match v with Val x => Some x | _ => None end.

Definition is_nullish {A} (v : field A) : bool :=
  match v with Val _ => false | _ => true end.

Definition is_null {A} (v : field A) : bool :=
  match v with Null => true | _ => false end.

(** The [SequelizeValidationError] of the [allowNull: false] attributes
    [fs] of [model]: its items joined by ",\n". *)
Definition not_null_item (model f : string) : string :=
  "notNull Violation: " ++ model ++ "." ++ f ++ " cannot be null".

Definition not_null_violation (model : string) (fs : list string) : fault :=
  mkFault "SequelizeValidationError" (join ("," ++ nl) (map (not_null_item model) fs)).

(** SQLite's "UNIQUE constraint failed" on the primary key, as Sequelize
    reports it. *)
Definition unique_violation : fault :=
  mkFault "SequelizeUniqueConstraintError" "Validation error".

Definition user_view_of (u : User) : user_view :=
  mkUserView (u_id u) (firstName u) (lastName u) (emailAddress u).

(** A course row with its owner included, restricted to the [attributes]
    lists of the queries. *)
Definition course_view_of (us : list User) (c : Course) : course_view :=
  mkCourseView (c_id c) (title c) (description c) (estimatedTime c)
    (materialsNeeded c) (userId c)
    (option_map user_view_of (find_user_by_id (userId c) us)).

(** ** Request bodies *)

Record course_body := mkCourseBody {
  b_id : field Z;
  b_title : field string;
  b_description : field string;
  b_estimatedTime : field string;
  b_materialsNeeded : field string;
  b_userId : field Z
}.

Record user_body := mkUserBody {
  ub_id : field Z;
  ub_firstName : field string;
  ub_lastName : field string;
  ub_emailAddress : field string;
  ub_password : field string
}.

(** [user.password = hashed] on the body object. *)
Definition set_password (b : user_body) (h : string) : user_body :=
  mkUserBody (ub_id b) (ub_firstName b) (ub_lastName b) (ub_emailAddress b) (Val h).

(** The [allowNull: false] attributes, in attribute order, that a new row
    built from the body leaves NULL ([id] is AUTOINCREMENT and not
    checked). *)
Definition course_create_nulls (b : course_body) : list string :=
  ((if is_nullish (b_title b) then ["title"] else []) ++
   (if is_nullish (b_description b) then ["description"] else []) ++
   (if is_nullish (b_userId b) then ["userId"] else []))%list.

Definition user_create_nulls (b : user_body) : list string :=
  ((if is_nullish (ub_firstName b) then ["firstName"] else []) ++
   (if is_nullish (ub_lastName b) then ["lastName"] else []) ++
   (if is_nullish (ub_emailAddress b) then ["emailAddress"] else []) ++
   (if is_nullish (ub_password b) then ["password"] else []))%list.

(** [instance.update(body)] on a course: [set] skips [undefined] values and
    ignores a new primary key when the stored one is truthy; the changed
    attributes that are [allowNull: false] and set to [null] fail
    validation. *)
Definition course_update_nulls (b : course_body) : list string :=
  ((if is_null (b_title b) then ["title"] else []) ++
   (if is_null (b_description b) then ["description"] else []) ++
   (if is_null (b_userId b) then ["userId"] else []))%list.

Definition option_string_eqb (x y : option string) : bool :=
  match x, y with
  | Some a, Some b => String.eqb a b
  | None, None => true
  | _, _ => false
  end.

(** The assignment of a nullable attribute, if its value changes. *)
Definition change_nullable (v : field string) (old : option string) : option (option string) :=
  match v with
  | Absent => None
  | Null => if option_string_eqb None old then None else Some None
  | Val x => if option_string_eqb (Some x) old then None else Some (Some x)
  end.

(** The attributes [set(body)] changes (those set to a non-null value, and
    the nullable ones), in attribute order. *)
Definition course_changes (c : Course) (b : course_body) : list assign :=
  ((if Z.eqb (c_id c) 0 then
      match b_id b with
      | Absent => []
      | Null => [SetId None]
      | Val k => if Z.eqb k 0 then [] else [SetId (Some k)]
      end
    else []) ++
   (match b_title b with
    | Val t => if String.eqb t (title c) then [] else [SetTitle t]
    | _ => []
    end) ++
   (match b_description b with
    | Val d => if String.eqb d (description c) then [] else [SetDescription d]
    | _ => []
    end) ++
   (match change_nullable (b_estimatedTime b) (estimatedTime c) with
    | Some e => [SetEstimatedTime e]
    | None => []
    end) ++
   (match change_nullable (b_materialsNeeded b) (materialsNeeded c) with
    | Some m => [SetMaterialsNeeded m]
    | None => []
    end) ++
   (match b_userId b with
    | Val u => if Z.eqb u (userId c) then [] else [SetUserId u]
    | _ => []
    end))%list.

(** [instance.where()]: the instance's current primary key. *)
Definition update_key (c : Course) (ch : list assign) : option Z :=
  fold_left (fun k a => match a with SetId k' => k' | _ => k end) ch (Some (c_id c)).

Definition apply_assign (r : Course) (a : assign) : Course :=
  match a with
  | SetId (Some k) => mkCourse k (title r) (description r) (estimatedTime r) (materialsNeeded r) (userId r)
  | SetId None => r
  | SetTitle t => mkCourse (c_id r) t (description r) (estimatedTime r) (materialsNeeded r) (userId r)
  | SetDescription d => mkCourse (c_id r) (title r) d (estimatedTime r) (materialsNeeded r) (userId r)
  | SetEstimatedTime e => mkCourse (c_id r) (title r) (description r) e (materialsNeeded r) (userId r)
  | SetMaterialsNeeded m => mkCourse (c_id r) (title r) (description r) (estimatedTime r) m (userId r)
  | SetUserId u => mkCourse (c_id r) (title r) (description r) (estimatedTime r) (materialsNeeded r) u
  end.

(** [UPDATE Courses SET ch WHERE id = key] ([WHERE id IS NULL] matches no
    row). *)
Definition update_rows (key : option Z) (ch : list assign) (cs : list Course) : list Course :=
  match key with
  | None => cs
  | Some k => map (fun r => if Z.eqb (c_id r) k then fold_left apply_assign ch r else r) cs
  end.

(** ** Request locations and express-validator *)

(** The parts of a request other than the body that [check(field)] reads:
    cookies (undefined without a cookie parser), headers (by lower-case
    name) and the query string. *)
Record request := mkRequest {
  rq_cookies : string -> option string;
  rq_headers : string -> option string;
  rq_query : string -> option string
}.

Definition of_opt (v : option string) : field string :=
  match v with Some x => Val x | None => Absent end.

(** [req.params] of a route without parameters, and of [/courses/:id]. *)
Definition no_params (f : string) : option string := None.

Definition id_params (id : Z) (f : string) : option string :=
  if String.eqb f "id" then Some (string_of_Z id) else None.

(** The field's value in the five locations of [check()]: body, cookies,
    headers, params, query. *)
Definition locations (rq : request) (params : string -> option string)
  (bv : field string) (f : string) : list (field string) :=
  [bv; of_opt (rq_cookies rq f); of_opt (rq_headers rq (lower f));
   of_opt (params f); of_opt (rq_query rq f)].

Definition is_defined (v : field string) : bool :=
  match v with Absent => false | _ => true end.

(** [context.getData()]: the instances whose value is not [undefined]; when
    there is none, the first one (the body's) alone. *)
Definition instances (vs : list (field string)) : list (field string) :=
  match filter is_defined vs with
  | [] => firstn 1 vs
  | ds => ds
  end.

(** Running a chain: for each validator in turn, its message once for every
    instance it rejects. *)
Definition run_chain (insts : list (field string))
  (validators : list ((field string -> bool) * string)) : list string :=
  flat_map (fun vm : (field string -> bool) * string =>
              flat_map (fun v => if fst vm v then [] else [snd vm]) insts) validators.

(** [.exists({ checkNull: true })]: [value != null]. *)
Definition exists_nonnull (v : field string) : bool :=
  match v with Val _ => true | _ => false end.

(** [.exists({ checkNull: true, checkFalsy: true })]: [!!value]. *)
Definition exists_truthy (v : field string) : bool :=
  match v with Val s => negb (String.eqb s EmptyString) | _ => false end.

(** express-validator's [toString], as standard validators receive it. *)
Definition to_string (v : field string) : string :=
  match v with Val s => s | _ => EmptyString end.

Definition needs_value (f : string) : string := dq ++ f ++ dq ++ " needs a value!".

Definition invalid_email : string := dq ++ "emailAddress" ++ dq ++ " must be a VALID value!".

(** The two chains of [POST /courses] and [PUT /courses/:id]; they differ
    only in the description message. *)
Definition course_errors (desc_msg : string) (rq : request)
  (params : string -> option string) (b : course_body) : list string :=
  (run_chain (instances (locations rq params (b_title b) "title"))
     [(exists_nonnull, needs_value "title")] ++
   run_chain (instances (locations rq params (b_description b) "description"))
     [(exists_truthy, desc_msg)])%list.

Definition course_errors_post (rq : request) (b : course_body) : list string :=
  course_errors (dq ++ "description" ++ dq ++ " needs a value") rq no_params b.

Definition course_errors_put (rq : request) (id : Z) (b : course_body) : list string :=
  course_errors (needs_value "description") rq (id_params id) b.

(** ** The server, over a digest, a storage fault oracle and [isEmail] *)

Section Server.

(** The Eksblowfish digest, encoded: [base64_encode(_crypt(...), 23)] for
    the number of rounds, the salt bytes and the password. *)
Variable bdigest : option Z -> list Z -> string -> string.

(** [db_fault e] is the error a storage call [e] rejects with, if any:
    the database is unavailable, or a constraint of the schema (such as the
    [userId] foreign key) refuses the write. *)
Variable db_fault : event -> option fault.

(** validator.js's [isEmail]. *)
Variable isEmail : string -> bool.

(** [_hash(s, salt)] with the checks of [_crypt] and its [finish]. *)
Definition bcrypt_hash (s salt : string) : fault + string :=
  if negb (String.eqb (char_at 0 salt) "$") || negb (String.eqb (char_at 1 salt) "2")
  then inl (js_error ("Invalid salt version: " ++ substring 0 2 salt))
  else
    let revision :=
      if String.eqb (char_at 2 salt) "$" then Some (nul, 3%nat)
      else
        let minor := char_at 2 salt in
        if (String.eqb minor "a" || String.eqb minor "b" || String.eqb minor "y")
           && String.eqb (char_at 3 salt) "$"
        then Some (minor, 4%nat) else None in
    match revision with
    | None => inl (js_error ("Invalid salt revision: " ++ substring 2 2 salt))
    | Some (minor, offset) =>
        if gt_dollar (char_at (offset + 2) salt) then inl (js_error "Missing salt rounds")
        else
          let rounds :=
            match parse_digit (char_at offset salt), parse_digit (char_at (offset + 1) salt) with
            | Some r1, Some r2 => Some (r1 * 10 + r2)%Z
            | _, _ => None
            end in
          let real_salt := substring (offset + 3) 22 salt in
          let s' := if ge_a minor then s ++ nul else s in
          let saltb := base64_decode real_salt 16 in
          if illegal_rounds rounds
          then inl (js_error ("Illegal number of rounds (4-31): " ++ rounds_to_string rounds))
          else if negb (Nat.eqb (length saltb) 16)
          then inl (js_error ("Illegal salt length: " ++ string_of_nat (length saltb) ++ " != 16"))
          else
            match base64_encode saltb (length saltb) with
            | inl f => inl f
            | inr senc =>
                inr ("$2" ++ (if ge_a minor then minor else EmptyString) ++ "$" ++
                     (if rounds_lt10 rounds then "0" else EmptyString) ++
                     rounds_to_string rounds ++ "$" ++ senc ++ bdigest rounds saltb s')
            end
    end.

(** [bcrypt.genSaltSync(10)]; [rb] is [random(16)], the bytes drawn from
    [crypto.randomBytes]. *)
Definition genSaltSync (rb : list Z) : fault + string :=
  match base64_encode rb 16 with
  | inl f => inl f
  | inr enc => inr ("$2a$10$" ++ enc)
  end.

(** [bcrypt.hashSync(s, salt)] with a string salt. *)
Definition hashSync_salt (s salt : string) : fault + string := bcrypt_hash s salt.

(** [bcrypt.hashSync(s)]: a fresh salt, then the type check of [s]. *)
Definition hashSync (rb : list Z) (s : field string) : fault + string :=
  match genSaltSync rb with
  | inl f => inl f
  | inr salt =>
      match s with
      | Val p => bcrypt_hash p salt
      | _ => inl (js_error ("Illegal arguments: " ++ typeof s ++ ", string"))
      end
  end.

(** [safeStringCompare(known, unknown)]: no character of [known] differs
    from the one of [unknown] at its index (a missing one differs), and at
    least one is equal. *)
Definition safeStringCompare (known unknown : string) : bool :=
  String.prefix known unknown && negb (String.eqb known EmptyString).

(** [bcrypt.compareSync(s, hash)] *)
Definition compareSync (s h : string) : fault + bool :=
  if negb (String.length h =? 60)%nat then inr false
  else match hashSync_salt s (substring 0 29 h) with
       | inl f => inl f
       | inr h' => inr (safeStringCompare h' h)
       end.

(** *** Storage calls *)

(** A storage call: logged, then either rejected by [db_fault] or run. *)
Definition db_call {A} (e : event) (m : M A) : M A :=
  emit e ;;;
  match db_fault e with
  | Some f => throw f
  | None => m
  end.

(** [User.findOne({ where: { emailAddress } })]: the first row in table
    order. *)
Definition User_findOne (email : string) : M (option User) :=
  db_call (EUserFindOne email) (s <- get_db ;; ret (find_user email (users s))).

(** [Course.create(body)]. *)
Definition Course_create (b : course_body) : M Course :=
  match b_title b, b_description b, b_userId b with
  | Val t, Val d, Val uid =>
      s <- get_db ;;
      let k := match explicit_key (b_id b) with
               | Some k => k
               | None => next_rowid (course_seq s) (map c_id (courses s))
               end in
      let c := mkCourse k t d (nullable (b_estimatedTime b)) (nullable (b_materialsNeeded b)) uid in
      db_call (ECourseCreate c)
        (match find_course k (courses s) with
         | Some _ => throw unique_violation
         | None => insert_course c ;;; ret c
         end)
  | _, _, _ => throw (not_null_violation "Course" (course_create_nulls b))
  end.

Definition Course_findByPk (id : Z) : M (option Course) :=
  db_call (ECourseFindByPk id) (s <- get_db ;; ret (find_course id (courses s))).

(** [course.update(body)]: validation of the changed attributes, then an
    [UPDATE] of them, or no query at all when nothing changed. *)
Definition Course_update (c : Course) (b : course_body) : M unit :=
  match course_update_nulls b with
  | [] =>
      match course_changes c b with
      | [] => ret tt
      | ch =>
          db_call (ECourseUpdate (update_key c ch) ch)
            (s <- get_db ;; set_courses (update_rows (update_key c ch) ch (courses s)))
      end
  | fs => throw (not_null_violation "Course" fs)
  end.

(** [course.destroy()]. *)
Definition Course_destroy (c : Course) : M unit :=
  db_call (ECourseDestroy (c_id c))
    (s <- get_db ;; set_courses (filter (fun x => negb (Z.eqb (c_id x) (c_id c))) (courses s))).

(** [User.create(user)]: the model declares no unique constraint besides
    the primary key. *)
Definition User_create (b : user_body) : M User :=
  match ub_firstName b, ub_lastName b, ub_emailAddress b, ub_password b with
  | Val fn, Val ln, Val em, Val pw =>
      s <- get_db ;;
      let k := match explicit_key (ub_id b) with
               | Some k => k
               | None => next_rowid (user_seq s) (map u_id (users s))
               end in
      let u := mkUser k fn ln em pw in
      db_call (EUserCreate u)
        (match find_user_by_id k (users s) with
         | Some _ => throw unique_violation
         | None => insert_user u ;;; ret u
         end)
  | _, _, _, _ => throw (not_null_violation "User" (user_create_nulls b))
  end.

(** *** The authentication gate ([authenticateUser]) *)

Inductive gate_result :=
| Respond (r : response)             (* a response is sent, next() not called *)
| Next (currentUser : option User).  (* next() with req.currentUser *)

Definition auth_failed_message : string :=
  "Failed or no authentication, please authenticate first.".

Definition unauthorized : response := json 401 (BMessage auth_failed_message).

(** The credential check proper: the final values of [message] and
    [req.currentUser]. *)
Definition check_credentials (cred : option credentials)
  : M (option string * option User) :=
  match cred with
  | Some c =>
      user <- User_findOne (name c) ;;
      match user with
      | Some u =>
          authenticated <- of_sum (compareSync (pass c) (password u)) ;;
          if authenticated then
            console_info ("Authentication is successful for user: " ++ emailAddress u) ;;;
            ret (None, Some u)
          else ret (Some ("User " ++ emailAddress u ++ " is not authenticated."), None)
      | None => ret (Some ("User " ++ name c ++ " is not found..."), None)
      end
  | None => ret (Some "AUTH Header not found.", None)
  end.

Definition authenticateUser (cred : option credentials) : M gate_result :=
  p <- check_credentials cred ;;
  let '(message, currentUser) := p in
  match message with
  | Some m =>
      if negb (String.eqb m EmptyString) then
        console_warn m ;;; ret (Respond unauthorized)
      else ret (Next currentUser)
  | None => ret (Next currentUser)
  end.

(** *** Express plumbing *)

(** What a request ends in: a response, or a promise rejection that no code
    of the app catches (the gate is an async middleware not wrapped by
    [asyncHandler]), so no response is written by the app. *)
Inductive outcome :=
| Responded (r : response)
| Unhandled (f : fault).

(** [asyncHandler(cb)]: a rejection of [cb] becomes a 500 response. *)
Definition asyncHandler (cb : M response) : M response :=
  catch cb (fun error => ret (json 500 (BError error))).

(** A route [..., authenticateUser, asyncHandler(cb)]. *)
Definition with_gate (cred : option credentials)
  (handler : option User -> M response) : M outcome :=
  catch
    (g <- authenticateUser cred ;;
     match g with
     | Respond r => ret (Responded r)
     | Next cu => r <- asyncHandler (handler cu) ;; ret (Responded r)
     end)
    (fun f => ret (Unhandled f)).

(** A route [..., asyncHandler(cb)] with no gate. *)
Definition open_route (handler : M response) : M outcome :=
  r <- asyncHandler handler ;; ret (Responded r).

Definition type_error : fault :=
  mkFault "TypeError" "Cannot read properties of undefined".

(** [POST /users]' validation chains. *)
Definition user_errors (rq : request) (b : user_body) : list string :=
  (run_chain (instances (locations rq no_params (ub_firstName b) "firstName"))
     [(exists_truthy, needs_value "firstName")] ++
   run_chain (instances (locations rq no_params (ub_lastName b) "lastName"))
     [(exists_truthy, needs_value "lastName")] ++
   run_chain (instances (locations rq no_params (ub_emailAddress b) "emailAddress"))
     [(exists_truthy, needs_value "emailAddress");
      (fun v => isEmail (to_string v), invalid_email)] ++
   run_chain (instances (locations rq no_params (ub_password b) "password"))
     [(exists_truthy, needs_value "password")])%list.

(** *** Route handlers ([errors] is [validationResult(req)]) *)

(** [GET /api/users] handler. *)
Definition get_users_handler (currentUser : option User) : M response :=
  match currentUser with
  | Some user => ret (json 200 (BUser (user_view_of user)))
  | None => throw type_error
  end.

Definition user_taken_message : string := "Hmm, this email is already taken!".

(** [POST /api/users] handler; [rb] is the random draw of [hashSync]. *)
Definition post_users_handler (rb : list Z) (errors : list string) (b : user_body)
  : M response :=
  catch
    (if negb (Nat.eqb (length errors) 0) then ret (json 400 (BErrors errors))
     else
       hashed <- of_sum (hashSync rb (ub_password b)) ;;
       User_create (set_password b hashed) ;;;
       ret (mkResponse 201 (Some "/") BNone))
    (fun error =>
       if String.eqb (f_name error) "SequelizeUniqueConstraintError"
       then ret (json 422 (BMessage user_taken_message))
       else throw error).

(** [GET /api/courses] handler. *)
Definition get_courses_handler : M response :=
  courses <- db_call ECourseFindAll
               (s <- get_db ;; ret (map (course_view_of (users s)) (courses s))) ;;
  ret (json 200 (BCourses courses)).

Definition course_missing_message : string := "Oops! The course could not be located.".

(** [GET /api/courses/:id] handler. *)
Definition get_course_handler (id : Z) : M response :=
  course <- db_call (ECourseFindByPk id)
              (s <- get_db ;;
               ret (option_map (course_view_of (users s)) (find_course id (courses s)))) ;;
  match course with
  | Some v => ret (json 200 (BCourse v))
  | None => ret (json 404 (BMessage course_missing_message))
  end.

(** [POST /api/courses] handler. *)
Definition post_courses_handler (errors : list string)
  (currentUser : option User) (b : course_body) : M response :=
  catch
    (if negb (Nat.eqb (length errors) 0) then ret (json 400 (BErrors errors))
     else
       course <- Course_create b ;;
       ret (mkResponse 201 (Some ("/courses/" ++ string_of_Z (c_id course))) BNone))
    (fun error => throw error).

Definition not_in_db_message : string :=
  "Please double check that this course exists in the database.".
Definition edit_own_message : string :=
  "Please make sure you are trying to edit your own course.".
Definition modify_own_message : string :=
  "Please make sure you are trying to modify your own course.".

(** [PUT /api/courses/:id] handler. *)
Definition put_course_handler (errors : list string)
  (currentUser : option User) (id : Z) (b : course_body) : M response :=
  catch
    (if negb (Nat.eqb (length errors) 0) then ret (json 400 (BErrors errors))
     else
       course <- Course_findByPk id ;;
       match course with
       | Some c =>
           match currentUser with
           | None => throw type_error
           | Some user =>
               if Z.eqb (userId c) (u_id user) then
                 Course_update c b ;;; ret (end_ 204)
               else ret (json 403 (BMessage edit_own_message))
           end
       | None => ret (json 404 (BMessage not_in_db_message))
       end)
    (fun error => throw error).

(** [DELETE /api/courses/:id] handler. *)
Definition delete_course_handler (currentUser : option User) (id : Z) : M response :=
  catch
    (course <- Course_findByPk id ;;
     match course with
     | Some c =>
         match currentUser with
         | None => throw type_error
         | Some user =>
             if Z.eqb (userId c) (u_id user) then
               Course_destroy c ;;; ret (end_ 204)
             else ret (json 403 (BMessage modify_own_message))
         end
     | None => ret (json 404 (BMessage not_in_db_message))
     end)
    (fun error => throw error).

(** *** Routes: validators, then [authenticateUser], then the handler *)

Definition get_users_route (cred : option credentials) : M outcome :=
  with_gate cred get_users_handler.

Definition post_users_route (rq : request) (rb : list Z) (b : user_body) : M outcome :=
  open_route (post_users_handler rb (user_errors rq b) b).

Definition get_courses_route : M outcome := open_route get_courses_handler.

Definition get_course_route (id : Z) : M outcome := open_route (get_course_handler id).

Definition post_courses_route (cred : option credentials) (rq : request) (b : course_body)
  : M outcome :=
  with_gate cred (fun cu => post_courses_handler (course_errors_post rq b) cu b).

Definition put_course_route (cred : option credentials) (rq : request) (id : Z)
  (b : course_body) : M outcome :=
  with_gate cred (fun cu => put_course_handler (course_errors_put rq id b) cu id b).

Definition delete_course_route (cred : option credentials) (id : Z) : M outcome :=
  with_gate cred (fun cu => delete_course_handler cu id).

End Server.

(** ** A concrete instance used in witnesses and scenarios

    A stand-in for the Eksblowfish digest (31 characters, depending on the
    password), a storage layer that never fails, an [isEmail] that accepts
    every non-empty string, and two random draws. *)

Definition pad31 : string := "0000000000000000000000000000000".

Definition toy_digest (rounds : option Z) (saltb : list Z) (s : string) : string :=
  substring 0 31 (s ++ pad31).

Definition no_fault (e : event) : option fault := None.

Definition any_email (e : string) : bool := negb (String.eqb e EmptyString).

(** A database that is down for user lookups. *)
Definition db_down (e : event) : option fault :=
  match e with
  | EUserFindOne _ => Some (mkFault "SequelizeConnectionError" "SQLITE_CANTOPEN")
  | _ => None
  end.

Definition rand_a : list Z := map Z.of_nat (seq 0 16).
Definition rand_b : list Z := map Z.of_nat (seq 200 16).

Definition hashed (rb : list Z) (p : string) : string :=
  match hashSync toy_digest rb (Val p) with inr h => h | inl _ => EmptyString end.

Definition alice : User := mkUser 1 "Alice" "Smith" "alice@example.com" (hashed rand_a "alice-pw").
Definition bob : User := mkUser 2 "Bob" "Jones" "bob@example.com" (hashed rand_b "bob-pw").

Definition alice_cred : credentials := mkCred "alice@example.com" "alice-pw".
Definition bob_cred : credentials := mkCred "bob@example.com" "bob-pw".

Definition course5 : Course := mkCourse 5 "Algebra" "Groups and rings" None None 2.
Definition course6 : Course := mkCourse 6 "Logic" "Proofs" (Some "3h") None 1.

Definition db0 : db := mkDb [alice; bob] [course5; course6] 2 6 [].

(** A request with no cookies, no headers read by the validators, and no
    query string. *)
Definition plain : request := mkRequest (fun _ => None) (fun _ => None) (fun _ => None).

(** [plain] with a query string [?description=]. *)
Definition empty_desc_query : request :=
  mkRequest (fun _ => None) (fun _ => None)
    (fun f => if String.eqb f "description" then Some EmptyString else None).

(** [plain] with a header [title: Sets]. *)
Definition title_header : request :=
  mkRequest (fun _ => None) (fun h => if String.eqb h "title" then Some "Sets" else None)
    (fun _ => None).

(** ** Auxiliary definitions for the statements *)

Definition add_log (s : db) (es : list event) : db :=
  mkDb (users s) (courses s) (user_seq s) (course_seq s) (log s ++ es)%list.

(** The 256 byte values, and a byte. *)
Definition bytes : list Z := map Z.of_nat (seq 0 256).

Definition is_byte (x : Z) : Prop := (0 <= x < 256)%Z.

(** The characters [base64_encode] writes for a group of three bytes
    [x y z], and for a last lone byte [x]. *)
Definition e1 (x : Z) : Z := Z.land (Z.shiftr (Z.land x 255) 2) 63.
Definition e2 (x y : Z) : Z :=
  Z.land (Z.lor (Z.shiftl (Z.land (Z.land x 255) 3) 4) (Z.land (Z.shiftr (Z.land y 255) 4) 15)) 63.
Definition e3 (y z : Z) : Z :=
  Z.land (Z.lor (Z.shiftl (Z.land (Z.land y 255) 15) 2) (Z.land (Z.shiftr (Z.land z 255) 6) 3)) 63.
Definition e4 (z : Z) : Z := Z.land (Z.land z 255) 63.
Definition e2_last (x : Z) : Z := Z.land (Z.shiftl (Z.land (Z.land x 255) 3) 4) 63.

(** The 22 salt characters [genSaltSync] writes for the random bytes [rb]. *)
Definition salt_chars (rb : list Z) : string := string_of_list_ascii (b64_encode_loop rb).

(** A bcrypt string made by [hashSync] from the random bytes [rb]. *)
Definition fresh_hash (bdigest : option Z -> list Z -> string -> string) (rb : list Z)
  (p : string) : string :=
  "$2a$10$" ++ salt_chars rb ++ bdigest (Some 10%Z) rb (p ++ nul).

(** [db0] with Alice's password hashed again from other random bytes. *)
Definition db0_rehashed : db :=
  mkDb [mkUser 1 "Alice" "Smith" "alice@example.com" (hashed rand_b "alice-pw"); bob]
       [course5; course6] 2 6 [].

Definition carol_body : user_body :=
  mkUserBody Absent (Val "Carol") (Val "White") (Val "carol@example.com") (Val "carol-pw").

(** A second sign-up under Alice's email address, with another password. *)
Definition alice_dup_body : user_body :=
  mkUserBody Absent (Val "Alice") (Val "Clone") (Val "alice@example.com") (Val "two-pw").

Definition alice_dup : User :=
  mkUser 3 "Alice" "Clone" "alice@example.com" (hashed rand_b "two-pw").

Definition db_dup : db :=
  snd (post_users_route toy_digest no_fault any_email plain rand_b alice_dup_body db0).

(** Was the request refused for its credentials: no header (or a malformed
    one), an unknown email address, or a password that does not verify? *)
Definition credential_problem bdigest (s : db) (cred : option credentials) : Prop :=
  match cred with
  | None => True
  | Some c =>
      match find_user (name c) (users s) with
      | None => True
      | Some u => compareSync bdigest (pass c) (password u) = inr false
      end
  end.

(** Did the gate accept [cred] as the user [u]? *)
Definition authenticates bdigest (s : db) (cred : option credentials) (u : User) : Prop :=
  exists c, cred = Some c /\ find_user (name c) (users s) = Some u /\
            compareSync bdigest (pass c) (password u) = inr true.

(** Two databases that differ at most in the stored password hashes. *)
Definition same_but_passwords (s1 s2 : db) : Prop :=
  map user_view_of (users s1) = map user_view_of (users s2) /\
  courses s1 = courses s2 /\ log s1 = log s2.

(** [m] keeps the property [P] of the two tables, from any state. *)
Definition preserves {A} (P : list User -> list Course -> Prop) (m : M A) : Prop :=
  forall s, P (users s) (courses s) -> P (users (snd (m s))) (courses (snd (m s))).


(** The tables are exactly [us0] and [cs0]. *)
Definition tables_are (us0 : list User) (cs0 : list Course)
  (us : list User) (cs : list Course) : Prop := us = us0 /\ cs = cs0.


Definition nonempty (x : string) : bool := negb (String.eqb x EmptyString).

(** A stored attribute after [set] of a body value: unchanged when the value
    is [undefined]; a non-null attribute keeps its value on [null] (the
    update is refused then); a nullable one becomes NULL. *)
Definition merge {A} (v : field A) (old : A) : A :=
  match v with Val x => x | _ => old end.

Definition merge_nullable (v : field string) (old : option string) : option string :=
  match v with Absent => old | Null => None | Val x => Some x end.

(** A body that fails the [POST /api/users] validation (no first name). *)
Definition nameless_body : user_body :=
  mkUserBody Absent Absent (Val "White") (Val "carol@example.com") (Val "carol-pw").

(** A course body that passes validation but names no owner. *)
Definition ownerless_course : course_body :=
  mkCourseBody Absent (Val "Topology") (Val "Spaces") Absent Absent Absent.

(** A course body for Alice's new course, and an update of its title that
    clears [estimatedTime]. *)
Definition alice_course : course_body :=
  mkCourseBody Absent (Val "Sets") (Val "Zermelo") Absent (Val "paper") (Val 1%Z).

Definition retitle : course_body :=
  mkCourseBody Absent (Val "Logic II") (Val "More proofs") Null Absent Absent.

(** A course body whose title is only in a request header. *)
Definition headed_course : course_body :=
  mkCourseBody Absent Absent (Val "Axioms") Absent Absent (Val 1%Z).

(** A user row whose stored password is plaintext, not a bcrypt string. *)
Definition dave : User := mkUser 4 "Dave" "Brown" "dave@example.com" "dave-pw".

(** ** Lemmas about strings and bcryptjs *)

Lemma in_bytes x : is_byte x -> In x bytes.
Proof.
  intros H; unfold bytes, is_byte in *; apply in_map_iff; exists (Z.to_nat x).
  split; [apply Z2Nat.id; lia|apply in_seq; lia].
Qed.

Lemma check_byte (f : Z -> bool) :
  forallb f bytes = true -> forall x, is_byte x -> f x = true.
Proof. intros H x Hx; rewrite forallb_forall in H; apply H, in_bytes, Hx. Qed.

Lemma check_byte2 (f : Z -> Z -> bool) :
  forallb (fun x => forallb (f x) bytes) bytes = true ->
  forall x y, is_byte x -> is_byte y -> f x y = true.
Proof.
  intros H x y Hx Hy; rewrite forallb_forall in H.
  specialize (H x (in_bytes x Hx)); rewrite forallb_forall in H; apply H, in_bytes, Hy.
Qed.

Lemma land63_range a : (0 <= Z.land a 63 < 64)%Z.
Proof.
  change 63%Z with (Z.ones 6); rewrite Z.land_ones by lia.
  apply Z.mod_pos_bound; reflexivity.
Qed.

Lemma index_code v : (0 <= v < 64)%Z -> b64_index (char_code (code_char v)) = v.
Proof.
  intros Hv.
  assert (H : forallb (fun n => Z.eqb (b64_index (char_code (code_char (Z.of_nat n)))) (Z.of_nat n))
                (seq 0 64) = true) by (vm_compute; reflexivity).
  rewrite forallb_forall in H.
  specialize (H (Z.to_nat v) ltac:(apply in_seq; lia)).
  rewrite Z2Nat.id in H by lia; apply Z.eqb_eq, H.
Qed.

Lemma index_code_e v : b64_index (char_code (code_char (Z.land v 63))) = Z.land v 63.
Proof. apply index_code, land63_range. Qed.

Lemma index_e1 x : b64_index (char_code (code_char (e1 x))) = e1 x.
Proof. apply index_code_e. Qed.
Lemma index_e2 x y : b64_index (char_code (code_char (e2 x y))) = e2 x y.
Proof. apply index_code_e. Qed.
Lemma index_e3 y z : b64_index (char_code (code_char (e3 y z))) = e3 y z.
Proof. apply index_code_e. Qed.
Lemma index_e4 z : b64_index (char_code (code_char (e4 z))) = e4 z.
Proof. apply index_code_e. Qed.
Lemma index_e2_last x : b64_index (char_code (code_char (e2_last x))) = e2_last x.
Proof. apply index_code_e. Qed.

Lemma byte1_ok x y : is_byte x -> is_byte y ->
  utf16 (Z.lor (Z.shiftl (e1 x) 2) (Z.shiftr (Z.land (e2 x y) 48) 4)) = x.
Proof.
  intros Hx Hy; apply Z.eqb_eq; revert x y Hx Hy; apply check_byte2.
  vm_compute; reflexivity.
Qed.

Lemma e2_low x y : is_byte x -> is_byte y -> Z.land (e2 x y) 15 = Z.land (Z.shiftr y 4) 15.
Proof.
  intros Hx Hy; apply Z.eqb_eq; revert x y Hx Hy; apply check_byte2.
  vm_compute; reflexivity.
Qed.

Lemma e3_high y z : is_byte y -> is_byte z -> Z.land (e3 y z) 60 = Z.shiftl (Z.land y 15) 2.
Proof.
  intros Hy Hz; apply Z.eqb_eq; revert y z Hy Hz; apply check_byte2.
  vm_compute; reflexivity.
Qed.

Lemma e3_low y z : is_byte y -> is_byte z -> Z.land (e3 y z) 3 = Z.land (Z.shiftr z 6) 3.
Proof.
  intros Hy Hz; apply Z.eqb_eq; revert y z Hy Hz; apply check_byte2.
  vm_compute; reflexivity.
Qed.

Lemma byte2_ok y : is_byte y ->
  utf16 (Z.lor (Z.shiftl (Z.land (Z.shiftr y 4) 15) 4) (Z.shiftr (Z.shiftl (Z.land y 15) 2) 2)) = y.
Proof. intros Hy; apply Z.eqb_eq; revert y Hy; apply check_byte; vm_compute; reflexivity. Qed.

Lemma byte3_ok z : is_byte z ->
  utf16 (Z.lor (Z.shiftl (Z.land (Z.shiftr z 6) 3) 6) (e4 z)) = z.
Proof. intros Hz; apply Z.eqb_eq; revert z Hz; apply check_byte; vm_compute; reflexivity. Qed.

Lemma byte_last_ok x : is_byte x ->
  utf16 (Z.lor (Z.shiftl (e1 x) 2) (Z.shiftr (Z.land (e2_last x) 48) 4)) = x.
Proof. intros Hx; apply Z.eqb_eq; revert x Hx; apply check_byte; vm_compute; reflexivity. Qed.

Lemma enc_group x y z r :
  b64_encode_loop (x :: y :: z :: r) =
  code_char (e1 x) :: code_char (e2 x y) :: code_char (e3 y z) :: code_char (e4 z) ::
  b64_encode_loop r.
Proof. reflexivity. Qed.

Lemma enc_last x : b64_encode_loop [x] = [code_char (e1 x); code_char (e2_last x)].
Proof. reflexivity. Qed.

Lemma nonneg_not_minus1 v : (0 <= v)%Z -> Z.eqb v (-1) = false.
Proof. intros H; apply Z.eqb_neq; lia. Qed.

Lemma dec_group x y z rest olen len :
  is_byte x -> is_byte y -> is_byte z -> (olen + 3 <= len)%nat ->
  b64_decode_loop (code_char (e1 x) :: code_char (e2 x y) :: code_char (e3 y z) ::
                   code_char (e4 z) :: rest) olen len =
  x :: y :: z :: b64_decode_loop rest (olen + 3) len.
Proof.
  intros Hx Hy Hz Hl; cbn [b64_decode_loop].
  rewrite index_e1, index_e2, index_e3, index_e4.
  rewrite !nonneg_not_minus1 by (apply land63_range).
  replace (olen <? len)%nat with true by (symmetry; apply Nat.ltb_lt; lia).
  replace (len <=? S olen)%nat with false by (symmetry; apply Nat.leb_gt; lia).
  replace (len <=? S (S olen))%nat with false by (symmetry; apply Nat.leb_gt; lia).
  cbn [orb].
  rewrite byte1_ok, e2_low, e3_high, byte2_ok, e3_low, byte3_ok by assumption.
  replace (S (S (S olen))) with (olen + 3)%nat by lia; reflexivity.
Qed.

Lemma dec_last x olen len :
  is_byte x -> S olen = len ->
  b64_decode_loop [code_char (e1 x); code_char (e2_last x)] olen len = [x].
Proof.
  intros Hx Hl; cbn [b64_decode_loop].
  rewrite index_e1, index_e2_last.
  rewrite !nonneg_not_minus1 by (apply land63_range).
  replace (olen <? len)%nat with true by (symmetry; apply Nat.ltb_lt; lia).
  replace (len <=? S olen)%nat with true by (symmetry; apply Nat.leb_le; lia).
  cbn [orb]; rewrite byte_last_ok by assumption; reflexivity.
Qed.

Ltac bytes16 rb :=
  let go := (destruct rb as [|? rb]; [discriminate|]) in
  do 16 go; destruct rb; [|discriminate].

Lemma b64_round_trip rb :
  length rb = 16%nat -> Forall is_byte rb ->
  b64_decode_loop (b64_encode_loop rb) 0 16 = rb.
Proof.
  intros Hl Hb; bytes16 rb.
  repeat match goal with H : Forall _ (_ :: _) |- _ => inversion H; subst; clear H end.
  rewrite !enc_group, enc_last.
  rewrite !dec_group by (assumption || lia).
  rewrite dec_last by (assumption || lia); reflexivity.
Qed.

Lemma b64_encode_length rb :
  length rb = 16%nat -> length (b64_encode_loop rb) = 22%nat.
Proof. intros Hl; bytes16 rb; reflexivity. Qed.

Lemma length_string_of_list_ascii l : String.length (string_of_list_ascii l) = length l.
Proof. induction l as [|a l IH]; simpl; [reflexivity|rewrite IH; reflexivity]. Qed.

Lemma salt_chars_length rb : length rb = 16%nat -> String.length (salt_chars rb) = 22%nat.
Proof.
  intros H; unfold salt_chars; rewrite length_string_of_list_ascii; apply b64_encode_length, H.
Qed.

Lemma base64_encode_16 rb : length rb = 16%nat -> base64_encode rb 16 = inr (salt_chars rb).
Proof.
  intros H; unfold base64_encode, salt_chars; rewrite H.
  change ((16 =? 0)%nat || (16 <? 16)%nat) with false; cbv iota.
  rewrite firstn_all2 by lia; reflexivity.
Qed.

Lemma base64_decode_salt rb :
  length rb = 16%nat -> Forall is_byte rb -> base64_decode (salt_chars rb) 16 = rb.
Proof.
  intros Hl Hb; unfold base64_decode, salt_chars.
  rewrite list_ascii_of_string_of_list_ascii; apply b64_round_trip; assumption.
Qed.

Lemma length_append (a b : string) :
  String.length (a ++ b) = (String.length a + String.length b)%nat.
Proof. induction a as [|ch a IH]; simpl; [reflexivity|rewrite IH; reflexivity]. Qed.

Lemma append_assoc_str (a b c : string) : (a ++ b) ++ c = a ++ b ++ c.
Proof. induction a as [|ch a IH]; simpl; [reflexivity|rewrite IH; reflexivity]. Qed.

Lemma substring_prefix (a b : string) : substring 0 (String.length a) (a ++ b) = a.
Proof.
  induction a as [|ch a IH]; simpl; [destruct b; reflexivity|rewrite IH; reflexivity].
Qed.

Lemma substring_whole (a : string) : substring 0 (String.length a) a = a.
Proof.
  assert (a ++ EmptyString = a) as E.
  { induction a as [|ch a IH]; simpl; [reflexivity|rewrite IH; reflexivity]. }
  pose proof (substring_prefix a EmptyString) as H.
  rewrite E in H; exact H.
Qed.

Lemma length_substring_0 n (s : string) :
  (n <= String.length s)%nat -> String.length (substring 0 n s) = n.
Proof.
  revert s; induction n as [|n IH]; intros s H; [destruct s; reflexivity|].
  destruct s as [|ch s]; simpl in *; [lia|].
  rewrite IH; [reflexivity|lia].
Qed.

Lemma toy_digest_length r sb p : String.length (toy_digest r sb p) = 31%nat.
Proof.
  unfold toy_digest; apply length_substring_0.
  rewrite length_append; simpl; lia.
Qed.

Lemma genSaltSync_eq rb : length rb = 16%nat -> genSaltSync rb = inr ("$2a$10$" ++ salt_chars rb).
Proof. intros H; unfold genSaltSync; rewrite base64_encode_16 by exact H; reflexivity. Qed.

(** [_hash] on a salt made by [genSaltSync(10)]. *)
Lemma bcrypt_hash_fresh bdigest p rb :
  length rb = 16%nat -> Forall is_byte rb ->
  bcrypt_hash bdigest p ("$2a$10$" ++ salt_chars rb) = inr (fresh_hash bdigest rb p).
Proof.
  intros Hl Hb; unfold bcrypt_hash, fresh_hash.
  remember (salt_chars rb) as E eqn:HE.
  assert (HE22 : String.length E = 22%nat) by (subst; apply salt_chars_length, Hl).
  simpl.
  rewrite <- HE22, substring_whole, HE, base64_decode_salt, Hl by assumption.
  cbn [negb Nat.eqb]; rewrite base64_encode_16 by exact Hl; reflexivity.
Qed.

(** A fresh hash is the generated salt header followed by the digest. *)
Lemma hashSync_eq bdigest rb p :
  length rb = 16%nat -> Forall is_byte rb ->
  hashSync bdigest rb (Val p) = inr (fresh_hash bdigest rb p).
Proof.
  intros Hl Hb; unfold hashSync; rewrite genSaltSync_eq by exact Hl.
  apply bcrypt_hash_fresh; assumption.
Qed.

Lemma fresh_hash_length bdigest rb p :
  (forall r sb q, String.length (bdigest r sb q) = 31%nat) -> length rb = 16%nat ->
  String.length (fresh_hash bdigest rb p) = 60%nat.
Proof.
  intros Hd Hl; unfold fresh_hash.
  rewrite length_append, length_append, salt_chars_length, Hd by exact Hl; reflexivity.
Qed.

Lemma fresh_hash_prefix bdigest rb p :
  length rb = 16%nat ->
  substring 0 29 (fresh_hash bdigest rb p) = "$2a$10$" ++ salt_chars rb.
Proof.
  intros Hl; unfold fresh_hash; rewrite <- append_assoc_str.
  replace 29%nat with (String.length ("$2a$10$" ++ salt_chars rb))
    by (rewrite length_append, salt_chars_length by exact Hl; reflexivity).
  apply substring_prefix.
Qed.

Lemma safeStringCompare_refl h : h <> EmptyString -> safeStringCompare h h = true.
Proof.
  intros Hh; unfold safeStringCompare.
  replace (String.prefix h h) with true
    by (symmetry; apply prefix_correct, substring_whole).
  destruct (String.eqb_spec h EmptyString); [contradiction|reflexivity].
Qed.

Lemma compareSync_fresh bdigest rb p :
  (forall r sb q, String.length (bdigest r sb q) = 31%nat) ->
  length rb = 16%nat -> Forall is_byte rb ->
  compareSync bdigest p (fresh_hash bdigest rb p) = inr true.
Proof.
  intros Hd Hl Hb; unfold compareSync.
  rewrite fresh_hash_length by assumption; cbn [negb Nat.eqb].
  rewrite fresh_hash_prefix by exact Hl; unfold hashSync_salt.
  rewrite bcrypt_hash_fresh by assumption.
  rewrite safeStringCompare_refl; [reflexivity|].
  unfold fresh_hash; simpl; discriminate.
Qed.

(** ** Lemmas about the monad and the gate *)

(** The gate's run, case by case. *)
Lemma authenticateUser_eq bdigest db_fault cred s :
  authenticateUser bdigest db_fault cred s =
  match cred with
  | None => (inr (Respond unauthorized), add_log s [EWarn "AUTH Header not found."])
  | Some c =>
    match db_fault (EUserFindOne (name c)) with
    | Some f => (inl f, add_log s [EUserFindOne (name c)])
    | None =>
      match find_user (name c) (users s) with
      | None =>
          (inr (Respond unauthorized),
           add_log s [EUserFindOne (name c); EWarn ("User " ++ name c ++ " is not found...")])
      | Some u =>
        match compareSync bdigest (pass c) (password u) with
        | inl f => (inl f, add_log s [EUserFindOne (name c)])
        | inr true =>
            (inr (Next (Some u)),
             add_log s [EUserFindOne (name c);
                        EInfo ("Authentication is successful for user: " ++ emailAddress u)])
        | inr false =>
            (inr (Respond unauthorized),
             add_log s [EUserFindOne (name c);
                        EWarn ("User " ++ emailAddress u ++ " is not authenticated.")])
        end
      end
    end
  end.
Proof.
  destruct s as [us cs useq cseq lg]; unfold add_log.
  destruct cred as [c|]; [|reflexivity].
  unfold authenticateUser, check_credentials, User_findOne, db_call, console_info,
    console_warn, of_sum, emit, bind, get_db, ret, throw.
  destruct (db_fault (EUserFindOne (name c))) as [f|] eqn:Ef; cbn; [reflexivity|].
  destruct (find_user (name c) us) as [u|] eqn:E; cbn; rewrite ?E; cbn.
  - destruct (compareSync bdigest (pass c) (password u)) as [f|[|]]; cbn;
      rewrite <- ?app_assoc; reflexivity.
  - rewrite <- app_assoc; reflexivity.
Qed.

(** The gate never writes to the tables. *)
Lemma authenticateUser_tables bdigest db_fault cred s res s' :
  authenticateUser bdigest db_fault cred s = (res, s') ->
  users s' = users s /\ courses s' = courses s.
Proof.
  rewrite authenticateUser_eq.
  destruct cred as [c|]; [|intros H; inversion H; subst; split; reflexivity].
  destruct (db_fault (EUserFindOne (name c))); [intros H; inversion H; subst; split; reflexivity|].
  destruct (find_user (name c) (users s)); [|intros H; inversion H; subst; split; reflexivity].
  destruct (compareSync _ _ _) as [?|[|]]; intros H; inversion H; subst; split; reflexivity.
Qed.

(** A route behind the gate: the gate's rejection is no response at all, its
    401 is the route's response, and after next() the handler's rejection is
    turned into a 500 by [asyncHandler]. *)
Lemma with_gate_eq bdigest db_fault cred handler s :
  with_gate bdigest db_fault cred handler s =
  match authenticateUser bdigest db_fault cred s with
  | (inl f, s') => (inr (Unhandled f), s')
  | (inr (Respond r), s') => (inr (Responded r), s')
  | (inr (Next cu), s') =>
      match handler cu s' with
      | (inl f, s'') => (inr (Responded (json 500 (BError f))), s'')
      | (inr r, s'') => (inr (Responded r), s'')
      end
  end.
Proof.
  unfold with_gate, asyncHandler, catch, bind, ret.
  destruct (authenticateUser bdigest db_fault cred s) as [[f|[r|cu]] s']; try reflexivity.
  destruct (handler cu s') as [[f|r] s'']; reflexivity.
Qed.

Lemma gate_respond_401 bdigest db_fault cred s r s' :
  authenticateUser bdigest db_fault cred s = (inr (Respond r), s') ->
  r = unauthorized /\ credential_problem bdigest s cred /\
  (forall c, cred = Some c -> db_fault (EUserFindOne (name c)) = None).
Proof.
  rewrite authenticateUser_eq; unfold credential_problem.
  destruct cred as [c|]; [|intros H; inversion H; subst; repeat split; discriminate].
  destruct (db_fault (EUserFindOne (name c))) eqn:Ef; [discriminate|].
  destruct (find_user (name c) (users s)) as [u|];
    [|intros H; inversion H; subst; repeat split; intros c' Hc; inversion Hc; subst; exact Ef].
  destruct (compareSync bdigest (pass c) (password u)) as [?|[|]] eqn:Ec;
    intros H; inversion H; subst; repeat split; try reflexivity;
    intros c' Hc; inversion Hc; subst; exact Ef.
Qed.

Lemma gate_next bdigest db_fault cred s cu s' :
  authenticateUser bdigest db_fault cred s = (inr (Next cu), s') ->
  exists u, cu = Some u /\ authenticates bdigest s cred u.
Proof.
  rewrite authenticateUser_eq; unfold authenticates.
  destruct cred as [c|]; [|discriminate].
  destruct (db_fault (EUserFindOne (name c))); [discriminate|].
  destruct (find_user (name c) (users s)) as [u|] eqn:Eu; [|discriminate].
  destruct (compareSync bdigest (pass c) (password u)) as [?|[|]] eqn:Ec; try discriminate.
  intros H; inversion H; subst.
  exists u; split; [reflexivity|]. exists c; auto.
Qed.

(** [course.update(body)], case by case. *)
Lemma Course_update_eq db_fault c b s :
  Course_update db_fault c b s =
  match course_update_nulls b with
  | [] =>
      match course_changes c b with
      | [] => (inr tt, s)
      | ch =>
          match db_fault (ECourseUpdate (update_key c ch) ch) with
          | Some f => (inl f, add_log s [ECourseUpdate (update_key c ch) ch])
          | None =>
              (inr tt, mkDb (users s) (update_rows (update_key c ch) ch (courses s))
                         (user_seq s) (course_seq s)
                         (log s ++ [ECourseUpdate (update_key c ch) ch])%list)
          end
      end
  | fs => (inl (not_null_violation "Course" fs), s)
  end.
Proof.
  destruct s as [us cs useq cseq lg]; unfold add_log.
  unfold Course_update; destruct (course_update_nulls b); [|reflexivity].
  destruct (course_changes c b) as [|a l]; [reflexivity|].
  unfold db_call, emit, bind, get_db, set_courses, throw.
  destruct (db_fault _); reflexivity.
Qed.

(** The [PUT /api/courses/:id] handler's run, case by case. *)
Lemma put_course_handler_eq db_fault errors cu id b s :
  put_course_handler db_fault errors cu id b s =
  if negb (Nat.eqb (length errors) 0) then (inr (json 400 (BErrors errors)), s)
  else
    match db_fault (ECourseFindByPk id) with
    | Some f => (inl f, add_log s [ECourseFindByPk id])
    | None =>
      match find_course id (courses s) with
      | None => (inr (json 404 (BMessage not_in_db_message)), add_log s [ECourseFindByPk id])
      | Some c =>
        match cu with
        | None => (inl type_error, add_log s [ECourseFindByPk id])
        | Some user =>
          if Z.eqb (userId c) (u_id user) then
            match Course_update db_fault c b (add_log s [ECourseFindByPk id]) with
            | (inl f, s') => (inl f, s')
            | (inr _, s') => (inr (end_ 204), s')
            end
          else (inr (json 403 (BMessage edit_own_message)), add_log s [ECourseFindByPk id])
        end
      end
    end.
Proof.
  destruct s as [us cs useq cseq lg]; unfold add_log.
  unfold put_course_handler, Course_findByPk, db_call, emit, catch, bind, get_db, ret, throw.
  destruct (Nat.eqb (length errors) 0); cbn -[Course_update]; [|reflexivity].
  destruct (db_fault (ECourseFindByPk id)) eqn:Ef; cbn -[Course_update]; [reflexivity|].
  destruct (find_course id cs) as [c|] eqn:Ec; cbn -[Course_update]; [|reflexivity].
  destruct cu as [user|]; cbn -[Course_update]; [|reflexivity].
  destruct (Z.eqb (userId c) (u_id user)); cbn -[Course_update]; [|reflexivity].
  destruct (Course_update db_fault c b _) as [[f|[]] s']; reflexivity.
Qed.

(** The [DELETE /api/courses/:id] handler's run, case by case. *)
Lemma delete_course_handler_eq db_fault cu id s :
  delete_course_handler db_fault cu id s =
  match db_fault (ECourseFindByPk id) with
  | Some f => (inl f, add_log s [ECourseFindByPk id])
  | None =>
    match find_course id (courses s) with
    | None => (inr (json 404 (BMessage not_in_db_message)), add_log s [ECourseFindByPk id])
    | Some c =>
      match cu with
      | None => (inl type_error, add_log s [ECourseFindByPk id])
      | Some user =>
        if Z.eqb (userId c) (u_id user) then
          match db_fault (ECourseDestroy (c_id c)) with
          | Some f => (inl f, add_log s [ECourseFindByPk id; ECourseDestroy (c_id c)])
          | None =>
              (inr (end_ 204),
               mkDb (users s) (filter (fun x => negb (Z.eqb (c_id x) (c_id c))) (courses s))
                 (user_seq s) (course_seq s)
                 (log s ++ [ECourseFindByPk id; ECourseDestroy (c_id c)])%list)
          end
        else (inr (json 403 (BMessage modify_own_message)), add_log s [ECourseFindByPk id])
      end
    end
  end.
Proof.
  destruct s as [us cs useq cseq lg]; unfold add_log.
  unfold delete_course_handler, Course_findByPk, Course_destroy, db_call, emit, catch, bind,
    get_db, set_courses, ret, throw.
  destruct (db_fault (ECourseFindByPk id)) eqn:Ef; cbn; [reflexivity|].
  destruct (find_course id cs) as [c|] eqn:Ec; cbn; rewrite ?Ec; cbn; [|reflexivity].
  destruct cu as [user|]; cbn; [|reflexivity].
  destruct (Z.eqb (userId c) (u_id user)); cbn; [|reflexivity].
  destruct (db_fault (ECourseDestroy (c_id c))); cbn; rewrite <- app_assoc; reflexivity.
Qed.

Lemma Course_update_users db_fault c b s r s' :
  Course_update db_fault c b s = (r, s') -> users s' = users s.
Proof.
  rewrite Course_update_eq.
  destruct (course_update_nulls b); [|intros H; inversion H; reflexivity].
  destruct (course_changes c b) as [|a l]; [intros H; inversion H; reflexivity|].
  cbv zeta; destruct (db_fault (ECourseUpdate (update_key c (a :: l)) (a :: l)));
    intros H; inversion H; reflexivity.
Qed.

Ltac gate_cases Eg :=
  match goal with
  | H : context [authenticateUser ?bd ?df ?cred ?s] |- _ =>
      destruct (authenticateUser bd df cred s) as [[?f|[?r0|?cu]] ?s1] eqn:Eg
  end.

(** What a 401 or a 403 of [PUT /api/courses/:id] means. *)
Lemma put_route_401_403 bdigest db_fault cred rq id b s r s' :
  put_course_route bdigest db_fault cred rq id b s = (inr (Responded r), s') ->
  (status r = 401%Z -> credential_problem bdigest s cred) /\
  (status r = 403%Z -> exists u c, authenticates bdigest s cred u /\
                       find_course id (courses s) = Some c /\ userId c <> u_id u).
Proof.
  unfold put_course_route; rewrite with_gate_eq; intros H.
  gate_cases Eg; [discriminate| |].
  - inversion H; subst r0.
    destruct (gate_respond_401 _ _ _ _ _ _ Eg) as [-> [Hp _]].
    split; [intros _; exact Hp|discriminate].
  - destruct (gate_next _ _ _ _ _ _ Eg) as [u [-> Hu]].
    destruct (authenticateUser_tables _ _ _ _ _ _ Eg) as [_ Hc].
    rewrite put_course_handler_eq in H.
    destruct (negb (Nat.eqb (length (course_errors_put rq id b)) 0));
      [inversion H; subst; split; discriminate|].
    destruct (db_fault (ECourseFindByPk id)); [inversion H; subst; split; discriminate|].
    destruct (find_course id (courses s1)) as [c|] eqn:Ec;
      [|inversion H; subst; split; discriminate].
    destruct (Z.eqb (userId c) (u_id u)) eqn:Eq.
    + destruct (Course_update _ _ _ _) as [[?|?] ?]; inversion H; subst; split; discriminate.
    + inversion H; subst; split; [discriminate|intros _].
      exists u, c; rewrite <- Hc; split; [exact Hu|split; [exact Ec|]].
      apply Z.eqb_neq; exact Eq.
Qed.

(** What a 401 or a 403 of [DELETE /api/courses/:id] means. *)
Lemma delete_route_401_403 bdigest db_fault cred id s r s' :
  delete_course_route bdigest db_fault cred id s = (inr (Responded r), s') ->
  (status r = 401%Z -> credential_problem bdigest s cred) /\
  (status r = 403%Z -> exists u c, authenticates bdigest s cred u /\
                       find_course id (courses s) = Some c /\ userId c <> u_id u).
Proof.
  unfold delete_course_route; rewrite with_gate_eq; intros H.
  gate_cases Eg; [discriminate| |].
  - inversion H; subst r0.
    destruct (gate_respond_401 _ _ _ _ _ _ Eg) as [-> [Hp _]].
    split; [intros _; exact Hp|discriminate].
  - destruct (gate_next _ _ _ _ _ _ Eg) as [u [-> Hu]].
    destruct (authenticateUser_tables _ _ _ _ _ _ Eg) as [_ Hc].
    rewrite delete_course_handler_eq in H.
    destruct (db_fault (ECourseFindByPk id)); [inversion H; subst; split; discriminate|].
    destruct (find_course id (courses s1)) as [c|] eqn:Ec;
      [|inversion H; subst; split; discriminate].
    destruct (Z.eqb (userId c) (u_id u)) eqn:Eq.
    + destruct (db_fault (ECourseDestroy (c_id c))); inversion H; subst; split; discriminate.
    + inversion H; subst; split; [discriminate|intros _].
      exists u, c; rewrite <- Hc; split; [exact Hu|split; [exact Ec|]].
      apply Z.eqb_neq; exact Eq.
Qed.

(** ** C1, C5, C6: the authentication gate *)

(** C1: the four rejections of the gate (no Authorization header or a
    malformed one, both [auth(req) = undefined]; an unknown email address; a
    wrong password) all end in the same response, HTTP 401 with the constant
    body [{ message: auth_failed_message }]; the specific reason is only
    logged with [console.warn], never sent. *)
Theorem gate_rejections_identical_401 bdigest db_fault s :
  fst (authenticateUser bdigest db_fault None s) = inr (Respond unauthorized) /\
  (forall c, db_fault (EUserFindOne (name c)) = None ->
     find_user (name c) (users s) = None ->
     fst (authenticateUser bdigest db_fault (Some c) s) = inr (Respond unauthorized)) /\
  (forall c u, db_fault (EUserFindOne (name c)) = None ->
     find_user (name c) (users s) = Some u ->
     compareSync bdigest (pass c) (password u) = inr false ->
     fst (authenticateUser bdigest db_fault (Some c) s) = inr (Respond unauthorized)) /\
  (forall cred r s', authenticateUser bdigest db_fault cred s = (inr (Respond r), s') ->
     r = mkResponse 401 None (BMessage auth_failed_message)).
Proof.
  split; [rewrite authenticateUser_eq; reflexivity|].
  split; [intros c Hf Hu; rewrite authenticateUser_eq, Hf, Hu; reflexivity|].
  split; [intros c u Hf Hu Hc; rewrite authenticateUser_eq, Hf, Hu, Hc; reflexivity|].
  intros cred r s' H; apply (gate_respond_401 _ _ _ _ _ _ H).
Qed.

Lemma gate_rejections_identical_401_witness :
  no_fault (EUserFindOne "alice@example.com") = None /\
  find_user "alice@example.com" (users db0) = Some alice /\
  compareSync toy_digest "wrong-pw" (password alice) = inr false /\
  fst (authenticateUser toy_digest no_fault (Some (mkCred "alice@example.com" "wrong-pw")) db0)
    = inr (Respond unauthorized).
Proof.
  split; [reflexivity|]. split; [reflexivity|]. split; [vm_compute; reflexivity|].
  apply (proj1 (proj2 (proj2 (gate_rejections_identical_401 toy_digest no_fault db0))))
    with (u := alice); vm_compute; reflexivity.
Defined.

(** C5: with no usable credentials ([auth(req)] undefined: header absent or
    malformed) the gate answers 401 at once. The only event is the warning:
    no [User.findOne] (nor any other storage call) is made, the tables are
    untouched, and the handler behind the gate is never run. *)
Theorem no_lookup_without_credentials bdigest db_fault handler s :
  authenticateUser bdigest db_fault None s =
    (inr (Respond unauthorized), add_log s [EWarn "AUTH Header not found."]) /\
  with_gate bdigest db_fault None handler s =
    (inr (Responded unauthorized), add_log s [EWarn "AUTH Header not found."]).
Proof.
  split; [rewrite authenticateUser_eq; reflexivity|].
  rewrite with_gate_eq, authenticateUser_eq; reflexivity.
Qed.

(** C6: a fault of [User.findOne] (storage unavailable) or of
    [bcryptjs.compareSync] (a malformed stored hash) is not turned into a
    response by the gate: the middleware's promise rejects with that very
    fault and the handler is not run. Conversely a 401 or 403 from
    [PUT]/[DELETE /api/courses/:id] only ever means a credential problem, or
    an authenticated user who does not own the existing course. *)
Theorem faults_not_mapped_to_401_403 bdigest db_fault s :
  (forall c f handler, db_fault (EUserFindOne (name c)) = Some f ->
     fst (with_gate bdigest db_fault (Some c) handler s) = inr (Unhandled f)) /\
  (forall c u f handler, db_fault (EUserFindOne (name c)) = None ->
     find_user (name c) (users s) = Some u ->
     compareSync bdigest (pass c) (password u) = inl f ->
     fst (with_gate bdigest db_fault (Some c) handler s) = inr (Unhandled f)) /\
  (forall cred rq id b r s',
     (put_course_route bdigest db_fault cred rq id b s = (inr (Responded r), s') \/
      delete_course_route bdigest db_fault cred id s = (inr (Responded r), s')) ->
     (status r = 401%Z -> credential_problem bdigest s cred) /\
     (status r = 403%Z -> exists u c, authenticates bdigest s cred u /\
                          find_course id (courses s) = Some c /\ userId c <> u_id u)).
Proof.
  split; [intros c f h Hf; rewrite with_gate_eq, authenticateUser_eq, Hf; reflexivity|].
  split; [intros c u f h Hf Hu Hc; rewrite with_gate_eq, authenticateUser_eq, Hf, Hu, Hc;
          reflexivity|].
  intros cred rq id b r s' [H|H];
    [exact (put_route_401_403 _ _ _ _ _ _ _ _ _ H) | exact (delete_route_401_403 _ _ _ _ _ _ _ H)].
Qed.

Lemma faults_not_mapped_to_401_403_witness :
  db_down (EUserFindOne "alice@example.com")
    = Some (mkFault "SequelizeConnectionError" "SQLITE_CANTOPEN") /\
  fst (with_gate toy_digest db_down (Some alice_cred) (fun cu => delete_course_handler db_down cu 6) db0)
    = inr (Unhandled (mkFault "SequelizeConnectionError" "SQLITE_CANTOPEN")).
Proof.
  split; [reflexivity|].
  apply (proj1 (faults_not_mapped_to_401_403 toy_digest db_down db0)); reflexivity.
Defined.

(** ** Lemmas about the course table and [course.update] *)

Lemma find_course_id id cs c : find_course id cs = Some c -> c_id c = id.
Proof.
  induction cs as [|x cs IH]; simpl; [discriminate|].
  destruct (Z.eqb (c_id x) id) eqn:E; [intros H; inversion H; subst; apply Z.eqb_eq; exact E|].
  exact IH.
Qed.

Lemma update_rows_nil c cs : update_rows (update_key c []) [] cs = cs.
Proof.
  unfold update_rows, update_key; simpl.
  induction cs as [|x cs IH]; simpl; [reflexivity|].
  rewrite IH; destruct (Z.eqb (c_id x) (c_id c)); reflexivity.
Qed.

Definition no_set_id (a : assign) : Prop :=
  match a with SetId _ => False | _ => True end.

Lemma fold_key_no_set_id ch k0 :
  Forall no_set_id ch ->
  fold_left (fun k a => match a with SetId k' => k' | _ => k end) ch k0 = k0.
Proof.
  revert k0; induction ch as [|a ch IH]; intros k0 H; [reflexivity|].
  inversion H as [|? ? Ha Hch]; subst; simpl.
  destruct a; try contradiction; apply IH, Hch.
Qed.

Lemma fold_id_no_set_id ch r :
  Forall no_set_id ch -> c_id (fold_left apply_assign ch r) = c_id r.
Proof.
  revert r; induction ch as [|a ch IH]; intros r H; [reflexivity|].
  inversion H as [|? ? Ha Hch]; subst; simpl.
  rewrite IH by exact Hch; destruct a; try contradiction; reflexivity.
Qed.

Lemma course_changes_no_id c b : c_id c <> 0%Z -> Forall no_set_id (course_changes c b).
Proof.
  intros Hc; unfold course_changes.
  replace (Z.eqb (c_id c) 0) with false by (symmetry; apply Z.eqb_neq, Hc).
  rewrite !Forall_app; cbn [app]; repeat split;
    repeat match goal with
    | |- Forall _ (match ?x with _ => _ end) => destruct x
    | |- Forall _ (if ?x then _ else _) => destruct x
    end; repeat constructor.
Qed.

Lemma update_key_nonzero c b :
  c_id c <> 0%Z -> update_key c (course_changes c b) = Some (c_id c).
Proof. intros H; apply fold_key_no_set_id, course_changes_no_id, H. Qed.

Lemma find_course_update_rows id cs c ch :
  find_course id cs = Some c -> Forall no_set_id ch ->
  find_course id (update_rows (Some id) ch cs) = Some (fold_left apply_assign ch c).
Proof.
  intros H Hch; unfold update_rows; induction cs as [|x cs IH]; simpl in *; [discriminate|].
  destruct (Z.eqb (c_id x) id) eqn:E; simpl.
  - injection H as <-; rewrite fold_id_no_set_id, E by exact Hch; reflexivity.
  - rewrite E; exact (IH H).
Qed.

Lemma option_string_eqb_eq x y : option_string_eqb x y = true -> x = y.
Proof.
  destruct x, y; simpl; try discriminate; [|reflexivity].
  intros H; apply String.eqb_eq in H; subst; reflexivity.
Qed.

Lemma seg_title bt t0 r :
  title r = t0 ->
  fold_left apply_assign
    (match bt with Val t => if String.eqb t t0 then [] else [SetTitle t] | _ => [] end) r =
  mkCourse (c_id r) (merge bt (title r)) (description r) (estimatedTime r)
    (materialsNeeded r) (userId r).
Proof.
  intros <-; destruct r as [i t0 d e m u]; destruct bt as [| |t]; simpl; try reflexivity.
  destruct (String.eqb_spec t t0) as [->|]; reflexivity.
Qed.

Lemma seg_description bd d0 r :
  description r = d0 ->
  fold_left apply_assign
    (match bd with Val d => if String.eqb d d0 then [] else [SetDescription d] | _ => [] end) r =
  mkCourse (c_id r) (title r) (merge bd (description r)) (estimatedTime r)
    (materialsNeeded r) (userId r).
Proof.
  intros <-; destruct r as [i t d0 e m u]; destruct bd as [| |d]; simpl; try reflexivity.
  destruct (String.eqb_spec d d0) as [->|]; reflexivity.
Qed.

Lemma change_nullable_merge v old :
  match change_nullable v old with Some e => Some e | None => Some old end =
  Some (merge_nullable v old).
Proof.
  destruct v as [| |x], old as [o|]; simpl; try reflexivity.
  destruct (String.eqb_spec x o) as [->|]; reflexivity.
Qed.

Lemma seg_estimatedTime be e0 r :
  estimatedTime r = e0 ->
  fold_left apply_assign
    (match change_nullable be e0 with Some e => [SetEstimatedTime e] | None => [] end) r =
  mkCourse (c_id r) (title r) (description r) (merge_nullable be (estimatedTime r))
    (materialsNeeded r) (userId r).
Proof.
  intros <-; destruct r as [i t d e m u]; simpl.
  pose proof (change_nullable_merge be e) as H.
  destruct (change_nullable be e); injection H as <-; reflexivity.
Qed.

Lemma seg_materialsNeeded bm m0 r :
  materialsNeeded r = m0 ->
  fold_left apply_assign
    (match change_nullable bm m0 with Some m => [SetMaterialsNeeded m] | None => [] end) r =
  mkCourse (c_id r) (title r) (description r) (estimatedTime r)
    (merge_nullable bm (materialsNeeded r)) (userId r).
Proof.
  intros <-; destruct r as [i t d e m u]; simpl.
  pose proof (change_nullable_merge bm m) as H.
  destruct (change_nullable bm m); injection H as <-; reflexivity.
Qed.

Lemma seg_userId bu u0 r :
  userId r = u0 ->
  fold_left apply_assign
    (match bu with Val u => if Z.eqb u u0 then [] else [SetUserId u] | _ => [] end) r =
  mkCourse (c_id r) (title r) (description r) (estimatedTime r)
    (materialsNeeded r) (merge bu (userId r)).
Proof.
  intros <-; destruct r as [i t d e m u0]; destruct bu as [| |u]; simpl; try reflexivity.
  destruct (Z.eqb_spec u u0) as [->|]; reflexivity.
Qed.

(** The row [course.update(body)] writes, attribute by attribute. *)
Lemma course_changes_apply c b :
  c_id c <> 0%Z ->
  fold_left apply_assign (course_changes c b) c =
  mkCourse (c_id c) (merge (b_title b) (title c)) (merge (b_description b) (description c))
    (merge_nullable (b_estimatedTime b) (estimatedTime c))
    (merge_nullable (b_materialsNeeded b) (materialsNeeded c))
    (merge (b_userId b) (userId c)).
Proof.
  intros Hc; unfold course_changes.
  rewrite (proj2 (Z.eqb_neq _ _) Hc).
  rewrite !fold_left_app; cbn [fold_left].
  rewrite seg_title by reflexivity.
  rewrite seg_description by reflexivity.
  rewrite seg_estimatedTime by reflexivity.
  rewrite seg_materialsNeeded by reflexivity.
  rewrite seg_userId by reflexivity.
  reflexivity.
Qed.

Lemma chain_body_null p m rest :
  p Null = false -> run_chain (instances (Null :: rest)) [(p, m)] <> [].
Proof.
  intros Hp; unfold instances; cbn [filter is_defined].
  unfold run_chain; cbn [flat_map fst snd]; rewrite Hp; discriminate.
Qed.

(** A body that passes the [PUT] (or [POST]) validation has a title and a
    description that are not [null]. *)
Lemma course_errors_not_null msg rq params b :
  course_errors msg rq params b = [] ->
  is_null (b_title b) = false /\ is_null (b_description b) = false.
Proof.
  unfold course_errors, locations; intros H; apply app_eq_nil in H as [H1 H2].
  split.
  - destruct (b_title b) eqn:Et; try reflexivity.
    exfalso; exact (chain_body_null exists_nonnull _ _ eq_refl H1).
  - destruct (b_description b) eqn:Ed; try reflexivity.
    exfalso; exact (chain_body_null exists_truthy _ _ eq_refl H2).
Qed.


(** ** C3: the ownership decision of [PUT] and [DELETE /api/courses/:id] *)

(** C3 fails as stated: the owner's [PUT] with a body that passes validation
    but sets [userId] to [null] is allowed by the ownership check, yet
    [course.update] then fails its notNull validation: the answer is 500,
    not 204, and the course is not changed. *)
Lemma owner_put_null_userId_500_counterexample :
  course_errors_put plain 6 (mkCourseBody Absent (Val "Logic") (Val "Proofs") Absent Absent Null)
    = [] /\
  find_course 6 (courses db0) = Some course6 /\ userId course6 = u_id alice /\
  fst (put_course_route toy_digest no_fault (Some alice_cred) plain 6
         (mkCourseBody Absent (Val "Logic") (Val "Proofs") Absent Absent Null) db0)
    = inr (Responded (json 500 (BError (not_null_violation "Course" ["userId"])))) /\
  courses (snd (put_course_route toy_digest no_fault (Some alice_cred) plain 6
         (mkCourseBody Absent (Val "Logic") (Val "Proofs") Absent Absent Null) db0))
    = courses db0.
Proof. repeat split; vm_compute; reflexivity. Qed.

(** C3 (amended): for an authenticated user and an existing course (the body
    of a [PUT] having passed validation, and no storage fault), the request is
    allowed exactly when [course.userId === user.id]; otherwise 403 with an
    ownership message is returned and nothing is written. An allowed
    [DELETE] destroys the course and returns 204. An allowed [PUT] writes the
    body's changes with [course.update] and returns 204, unless the body sets
    a non-null attribute ([userId]) to [null]: then [course.update] rejects
    with a notNull violation and nothing is written. *)
Theorem ownership_decision_put_delete db_fault rq user id b c s :
  (forall e, db_fault e = None) ->
  course_errors_put rq id b = [] ->
  find_course id (courses s) = Some c ->
  (userId c = u_id user ->
     (course_update_nulls b = [] ->
        fst (put_course_handler db_fault (course_errors_put rq id b) (Some user) id b s)
          = inr (end_ 204) /\
        users (snd (put_course_handler db_fault (course_errors_put rq id b) (Some user) id b s))
          = users s /\
        courses (snd (put_course_handler db_fault (course_errors_put rq id b) (Some user) id b s))
          = update_rows (update_key c (course_changes c b)) (course_changes c b) (courses s)) /\
     (course_update_nulls b <> [] ->
        put_course_handler db_fault (course_errors_put rq id b) (Some user) id b s =
          (inl (not_null_violation "Course" (course_update_nulls b)),
           add_log s [ECourseFindByPk id])) /\
     delete_course_handler db_fault (Some user) id s =
       (inr (end_ 204),
        mkDb (users s) (filter (fun x => negb (Z.eqb (c_id x) (c_id c))) (courses s))
          (user_seq s) (course_seq s)
          (log s ++ [ECourseFindByPk id; ECourseDestroy (c_id c)])%list)) /\
  (userId c <> u_id user ->
     put_course_handler db_fault (course_errors_put rq id b) (Some user) id b s =
       (inr (json 403 (BMessage edit_own_message)), add_log s [ECourseFindByPk id]) /\
     delete_course_handler db_fault (Some user) id s =
       (inr (json 403 (BMessage modify_own_message)), add_log s [ECourseFindByPk id])).
Proof.
  intros Hnf Hv Hc.
  rewrite put_course_handler_eq, delete_course_handler_eq, Hv, !Hnf, Hc; simpl.
  split; intros Ho.
  - rewrite Ho, Z.eqb_refl, Course_update_eq.
    split; [|split; [|rewrite Hnf; reflexivity]].
    + intros Hn; rewrite Hn.
      destruct (course_changes c b) as [|a l]; [rewrite update_rows_nil; auto|].
      cbv beta iota zeta; rewrite Hnf; auto.
    + intros Hn; destruct (course_update_nulls b); [contradiction|reflexivity].
  - apply Z.eqb_neq in Ho; rewrite Ho; split; reflexivity.
Qed.

Lemma ownership_decision_put_delete_witness :
  (forall e, no_fault e = None) /\
  course_errors_put plain 6 retitle = [] /\
  find_course 6 (courses db0) = Some course6 /\
  fst (put_course_handler no_fault (course_errors_put plain 6 retitle) (Some alice) 6 retitle db0)
    = inr (end_ 204) /\
  fst (delete_course_handler no_fault (Some bob) 6 db0)
    = inr (json 403 (BMessage modify_own_message)).
Proof.
  split; [reflexivity|]. split; [vm_compute; reflexivity|]. split; [reflexivity|].
  pose proof (ownership_decision_put_delete no_fault plain alice 6 retitle course6 db0
                (fun e => eq_refl) ltac:(vm_compute; reflexivity) eq_refl) as [Hown _].
  pose proof (ownership_decision_put_delete no_fault plain bob 6 retitle course6 db0
                (fun e => eq_refl) ltac:(vm_compute; reflexivity) eq_refl) as [_ Hother].
  split.
  - destruct (Hown eq_refl) as [Hp _]. exact (proj1 (Hp eq_refl)).
  - destruct (Hother ltac:(discriminate)) as [_ Hd]. rewrite Hd; reflexivity.
Defined.

(** ** C10: [PUT]/[DELETE /api/courses/:id] on a missing course *)

(** C10 fails as stated: an authenticated [PUT] on a missing course whose
    body lacks a description is answered 400 by the validation check, which
    runs before the lookup, not 404. *)
Lemma missing_course_put_400_counterexample :
  find_course 99 (courses db0) = None /\
  fst (put_course_route toy_digest no_fault (Some alice_cred) plain 99
         (mkCourseBody Absent (Val "Topology") Absent Absent Absent Absent) db0)
    = inr (Responded (json 400 (BErrors [needs_value "description"]))).
Proof. split; vm_compute; reflexivity. Qed.

(** C10 (amended): for an authenticated user and an id with no course, the
    tables are never changed; [DELETE], and [PUT] with a body that passes
    validation, answer 404 with a not-found message unless the lookup itself
    fails (then [asyncHandler] answers 500); a [PUT] whose body fails
    validation answers 400. *)
Theorem missing_course_untouched db_fault rq user id b s :
  find_course id (courses s) = None ->
  (forall r s', put_course_handler db_fault (course_errors_put rq id b) (Some user) id b s
                  = (r, s') ->
     users s' = users s /\ courses s' = courses s) /\
  (forall r s', delete_course_handler db_fault (Some user) id s = (r, s') ->
     users s' = users s /\ courses s' = courses s) /\
  (course_errors_put rq id b = [] -> db_fault (ECourseFindByPk id) = None ->
     fst (put_course_handler db_fault (course_errors_put rq id b) (Some user) id b s)
       = inr (json 404 (BMessage not_in_db_message))) /\
  (db_fault (ECourseFindByPk id) = None ->
     fst (delete_course_handler db_fault (Some user) id s)
       = inr (json 404 (BMessage not_in_db_message))) /\
  (course_errors_put rq id b <> [] ->
     fst (put_course_handler db_fault (course_errors_put rq id b) (Some user) id b s)
       = inr (json 400 (BErrors (course_errors_put rq id b)))).
Proof.
  intros Hc.
  split; [|split; [|split; [|split]]].
  - intros r s'; rewrite put_course_handler_eq.
    destruct (negb (Nat.eqb (length (course_errors_put rq id b)) 0));
      [intros H; inversion H; subst; split; reflexivity|].
    destruct (db_fault (ECourseFindByPk id)); [intros H; inversion H; subst; split; reflexivity|].
    rewrite Hc; intros H; inversion H; subst; split; reflexivity.
  - intros r s'; rewrite delete_course_handler_eq.
    destruct (db_fault (ECourseFindByPk id)); [intros H; inversion H; subst; split; reflexivity|].
    rewrite Hc; intros H; inversion H; subst; split; reflexivity.
  - intros Hv Hf; rewrite put_course_handler_eq, Hv, Hf, Hc; reflexivity.
  - intros Hf; rewrite delete_course_handler_eq, Hf, Hc; reflexivity.
  - intros Hv; rewrite put_course_handler_eq.
    destruct (course_errors_put rq id b) as [|e es]; [contradiction|reflexivity].
Qed.

Lemma missing_course_untouched_witness :
  find_course 99 (courses db0) = None /\
  fst (delete_course_handler no_fault (Some alice) 99 db0)
    = inr (json 404 (BMessage not_in_db_message)).
Proof.
  split; [reflexivity|].
  apply (proj1 (proj2 (proj2 (proj2
           (missing_course_untouched no_fault plain alice 99
              (mkCourseBody Absent Absent Absent Absent Absent Absent) db0 eq_refl))))).
  reflexivity.
Defined.

(** An owner's [PUT] with a body that passes validation and sets no non-null
    attribute to [null]: 204, and the [UPDATE] of the changed attributes. *)
Lemma put_owner_run db_fault errors user id b c s :
  (forall e, db_fault e = None) -> errors = [] ->
  find_course id (courses s) = Some c -> userId c = u_id user ->
  course_update_nulls b = [] ->
  fst (put_course_handler db_fault errors (Some user) id b s) = inr (end_ 204) /\
  users (snd (put_course_handler db_fault errors (Some user) id b s)) = users s /\
  courses (snd (put_course_handler db_fault errors (Some user) id b s))
    = update_rows (update_key c (course_changes c b)) (course_changes c b) (courses s).
Proof.
  intros Hnf -> Hc Ho Hn.
  rewrite put_course_handler_eq, Hnf, Hc, Ho, Z.eqb_refl, Course_update_eq, Hn; simpl.
  destruct (course_changes c b) as [|a l]; [rewrite update_rows_nil; auto|].
  cbv beta iota zeta; rewrite Hnf; auto.
Qed.

(** The row an owner's [PUT] leaves under the course's id. *)
Lemma put_owner_row db_fault rq user id b c s :
  (forall e, db_fault e = None) -> id <> 0%Z ->
  course_errors_put rq id b = [] -> find_course id (courses s) = Some c ->
  userId c = u_id user -> course_update_nulls b = [] ->
  find_course id (courses (snd (put_course_handler db_fault (course_errors_put rq id b)
                                  (Some user) id b s)))
  = Some (mkCourse id (merge (b_title b) (title c)) (merge (b_description b) (description c))
            (merge_nullable (b_estimatedTime b) (estimatedTime c))
            (merge_nullable (b_materialsNeeded b) (materialsNeeded c))
            (merge (b_userId b) (userId c))).
Proof.
  intros Hnf Hid Hv Hc Ho Hn.
  pose proof (find_course_id _ _ _ Hc) as Hcid.
  destruct (put_owner_run db_fault _ user id b c s Hnf Hv Hc Ho Hn) as [_ [_ ->]].
  rewrite update_key_nonzero, Hcid by congruence.
  rewrite find_course_update_rows with (c := c); [|exact Hc|].
  - rewrite course_changes_apply, Hcid by congruence; reflexivity.
  - apply course_changes_no_id; congruence.
Qed.

(** ** C2: which course mutations are guarded by ownership *)




(** ** C7: [hashSync] is salted, and its outputs verify *)

Lemma hashSync_val bdigest rb v h : hashSync bdigest rb v = inr h -> exists p, v = Val p.
Proof.
  unfold hashSync; destruct (genSaltSync rb); [discriminate|].
  destruct v; try discriminate; eauto.
Qed.

Lemma string_of_list_ascii_inj l1 l2 : string_of_list_ascii l1 = string_of_list_ascii l2 -> l1 = l2.
Proof.
  intros H; rewrite <- (list_ascii_of_string_of_list_ascii l1),
    <- (list_ascii_of_string_of_list_ascii l2), H; reflexivity.
Qed.

(** The salt draw can be read back from a fresh hash. *)
Lemma fresh_hash_inj bdigest rb1 rb2 p1 p2 :
  length rb1 = 16%nat -> Forall is_byte rb1 -> length rb2 = 16%nat -> Forall is_byte rb2 ->
  fresh_hash bdigest rb1 p1 = fresh_hash bdigest rb2 p2 -> rb1 = rb2.
Proof.
  intros L1 B1 L2 B2 E.
  assert (E' : substring 0 29 (fresh_hash bdigest rb1 p1) = substring 0 29 (fresh_hash bdigest rb2 p2))
    by (rewrite E; reflexivity).
  rewrite !fresh_hash_prefix in E' by assumption.
  simpl in E'; repeat (injection E' as E'); apply string_of_list_ascii_inj in E'.
  rewrite <- (b64_round_trip rb1), <- (b64_round_trip rb2), E' by assumption; reflexivity.
Qed.

(** C7 fails as stated: two calls of [hashSync] give different strings only
    when bcryptjs's random source draws different salt bytes; when the draws
    coincide, so do the outputs. *)
Lemma same_salt_same_hash_counterexample :
  ~ (forall rb1 rb2, hashSync toy_digest rb1 (Val "alice-pw") <>
                     hashSync toy_digest rb2 (Val "alice-pw")).
Proof. intros H; apply (H rand_a rand_a); reflexivity. Qed.

(** C7 (amended): for two draws [rb1], [rb2] of 16 random bytes, the two
    outputs of [hashSync(s)] differ exactly when the draws differ (the salt
    is part of the output), and [compareSync(s, h)] is true for each of
    them. *)
Theorem hash_salted_and_verifies bdigest s rb1 rb2 :
  (forall r sb q, String.length (bdigest r sb q) = 31%nat) ->
  length rb1 = 16%nat -> Forall is_byte rb1 ->
  length rb2 = 16%nat -> Forall is_byte rb2 ->
  exists h1 h2,
    hashSync bdigest rb1 (Val s) = inr h1 /\ hashSync bdigest rb2 (Val s) = inr h2 /\
    (h1 = h2 <-> rb1 = rb2) /\
    compareSync bdigest s h1 = inr true /\ compareSync bdigest s h2 = inr true.
Proof.
  intros Hd L1 B1 L2 B2.
  exists (fresh_hash bdigest rb1 s), (fresh_hash bdigest rb2 s).
  split; [apply hashSync_eq; assumption|].
  split; [apply hashSync_eq; assumption|].
  split; [|split; apply compareSync_fresh; assumption].
  split; [apply fresh_hash_inj; assumption|intros ->; reflexivity].
Qed.

Lemma hash_salted_and_verifies_witness :
  (forall r sb q, String.length (toy_digest r sb q) = 31%nat) /\
  length rand_a = 16%nat /\ length rand_b = 16%nat /\
  hashSync toy_digest rand_a (Val "alice-pw") <> hashSync toy_digest rand_b (Val "alice-pw").
Proof.
  split; [exact toy_digest_length|]. split; [reflexivity|]. split; [reflexivity|].
  destruct (hash_salted_and_verifies toy_digest "alice-pw" rand_a rand_b toy_digest_length
              eq_refl ltac:(simpl; repeat constructor; unfold is_byte; lia)
              eq_refl ltac:(simpl; repeat constructor; unfold is_byte; lia))
    as [h1 [h2 [E1 [E2 [Hiff _]]]]].
  rewrite E1, E2; intros E; injection E as E.
  apply Hiff in E; discriminate E.
Defined.

(** ** C8: [POST /api/users] stores the bcrypt hash *)

Ltac post_fail :=
  cbv beta iota;
  try match goal with |- context [String.eqb ?x "SequelizeUniqueConstraintError"] =>
    destruct (String.eqb x "SequelizeUniqueConstraintError") end;
  intros H; inversion H; subst; discriminate.

(** A 201 of the [POST /api/users] handler, step by step. *)
Lemma post_users_handler_201 bdigest db_fault rb errors b s res s' :
  post_users_handler bdigest db_fault rb errors b s = (inr res, s') -> status res = 201%Z ->
  errors = [] /\ res = mkResponse 201 (Some "/") BNone /\
  exists p h fn ln em k,
    ub_password b = Val p /\ hashSync bdigest rb (Val p) = inr h /\
    ub_firstName b = Val fn /\ ub_lastName b = Val ln /\ ub_emailAddress b = Val em /\
    k = match explicit_key (ub_id b) with
        | Some k => k
        | None => next_rowid (user_seq s) (map u_id (users s))
        end /\
    db_fault (EUserCreate (mkUser k fn ln em h)) = None /\
    find_user_by_id k (users s) = None /\
    s' = mkDb (users s ++ [mkUser k fn ln em h])%list (courses s)
           (Z.max (user_seq s) k) (course_seq s) (log s ++ [EUserCreate (mkUser k fn ln em h)])%list.
Proof.
  unfold post_users_handler, User_create, db_call, emit, of_sum, get_db, insert_user, catch,
    bind, ret, throw.
  destruct errors as [|e es]; cbn [length Nat.eqb negb];
    [|intros H; inversion H; subst; discriminate].
  destruct (hashSync bdigest rb (ub_password b)) as [f|h] eqn:Eh; cbv beta iota zeta.
  { destruct (String.eqb (f_name f) "SequelizeUniqueConstraintError");
      intros H; inversion H; subst; discriminate. }
  destruct (hashSync_val _ _ _ _ Eh) as [p Ep]; rewrite Ep in Eh.
  cbn [set_password ub_firstName ub_lastName ub_emailAddress ub_password ub_id].
  destruct (ub_firstName b) as [| |fn] eqn:Efn; [post_fail ..|].
  destruct (ub_lastName b) as [| |ln] eqn:Eln; [post_fail ..|].
  destruct (ub_emailAddress b) as [| |em] eqn:Eem; [post_fail ..|].
  cbv beta iota zeta.
  set (k := match explicit_key (ub_id b) with
            | Some k => k
            | None => next_rowid (user_seq s) (map u_id (users s))
            end).
  destruct (db_fault (EUserCreate (mkUser k fn ln em h))) eqn:Ef; [post_fail|].
  destruct (find_user_by_id k (users s)) eqn:Ek; [post_fail|].
  intros H Hst; inversion H; subst.
  split; [reflexivity|]. split; [reflexivity|].
  exists p, h, fn, ln, em, k; repeat split; assumption.
Qed.

(** C8: whenever [POST /api/users] answers 201, the response is
    [201, Location: /] with no body, and exactly one user row was added whose
    [password] is the output of [bcryptjs.hashSync] on the submitted
    password [p] (with the request's random draw [rb]), the other fields
    being the body's. For a draw of 16 random bytes and a 31-character
    digest this stored value is the 60-character bcrypt string, which
    [compareSync(p, _)] accepts, so it is not [p] for any [p] of another
    length. *)
Theorem post_users_stores_hash bdigest db_fault isEmail rq rb b s res s' :
  post_users_route bdigest db_fault isEmail rq rb b s = (inr (Responded res), s') ->
  status res = 201%Z ->
  res = mkResponse 201 (Some "/") BNone /\
  exists p u,
    ub_password b = Val p /\
    users s' = (users s ++ [u])%list /\ courses s' = courses s /\
    hashSync bdigest rb (Val p) = inr (password u) /\
    ub_firstName b = Val (firstName u) /\ ub_lastName b = Val (lastName u) /\
    ub_emailAddress b = Val (emailAddress u) /\
    (length rb = 16%nat -> Forall is_byte rb ->
     (forall r sb q, String.length (bdigest r sb q) = 31%nat) ->
       String.length (password u) = 60%nat /\
       compareSync bdigest p (password u) = inr true /\
       (String.length p <> 60%nat -> password u <> p)).
Proof.
  unfold post_users_route, open_route, asyncHandler, catch, bind, ret.
  destruct (post_users_handler bdigest db_fault rb (user_errors isEmail rq b) b s)
    as [[f|r] s1] eqn:E; intros H Hst; inversion H; subst; [discriminate|].
  destruct (post_users_handler_201 _ _ _ _ _ _ _ _ E Hst)
    as [_ [Hr [p [h [fn [ln [em [k [Ep [Eh [Efn [Eln [Eem [_ [_ [_ ->]]]]]]]]]]]]]]]].
  split; [exact Hr|].
  exists p, (mkUser k fn ln em h); cbn [users courses password firstName lastName emailAddress].
  do 7 (split; [assumption || reflexivity|]).
  intros Hl Hb Hd.
  rewrite hashSync_eq in Eh by assumption; injection Eh as <-.
  split; [apply fresh_hash_length; assumption|].
  split; [apply compareSync_fresh; assumption|].
  intros Hp E'; apply Hp; rewrite <- E'; apply fresh_hash_length; assumption.
Qed.

Lemma post_users_stores_hash_witness :
  post_users_route toy_digest no_fault any_email plain rand_a carol_body db0 =
    (inr (Responded (mkResponse 201 (Some "/") BNone)),
     snd (post_users_route toy_digest no_fault any_email plain rand_a carol_body db0)) /\
  exists u, users (snd (post_users_route toy_digest no_fault any_email plain rand_a carol_body db0))
              = (users db0 ++ [u])%list /\
            compareSync toy_digest "carol-pw" (password u) = inr true /\
            password u <> "carol-pw".
Proof.
  assert (post_users_route toy_digest no_fault any_email plain rand_a carol_body db0 =
    (inr (Responded (mkResponse 201 (Some "/") BNone)),
     snd (post_users_route toy_digest no_fault any_email plain rand_a carol_body db0))) as H
    by (vm_compute; reflexivity).
  split; [exact H|].
  destruct (post_users_stores_hash toy_digest no_fault any_email plain rand_a carol_body db0 _ _
              H eq_refl)
    as [_ [p [u [Hp [Hu [_ [_ [_ [_ [_ Hlen]]]]]]]]]].
  injection Hp as <-.
  destruct (Hlen eq_refl ltac:(simpl; repeat constructor; unfold is_byte; lia) toy_digest_length)
    as [_ [Hc Hne]].
  exists u; split; [exact Hu|]; split; [exact Hc|].
  apply Hne; discriminate.
Defined.

(** ** C9: read endpoints never expose the stored password *)

Lemma find_user_by_id_views id us1 us2 :
  map user_view_of us1 = map user_view_of us2 ->
  option_map user_view_of (find_user_by_id id us1) =
  option_map user_view_of (find_user_by_id id us2).
Proof.
  revert us2; induction us1 as [|u1 us1 IH]; intros [|u2 us2] H; cbn [map] in H;
    try discriminate; [reflexivity|].
  assert (Hv : user_view_of u1 = user_view_of u2) by congruence.
  assert (Hr : map user_view_of us1 = map user_view_of us2) by congruence.
  cbn [find_user_by_id find_user].
  assert (u_id u1 = u_id u2) as Hid by exact (f_equal uv_id Hv).
  rewrite Hid; destruct (Z.eqb (u_id u2) id); [simpl; rewrite Hv; reflexivity|].
  apply IH; exact Hr.
Qed.

Lemma find_user_views email us1 us2 :
  map user_view_of us1 = map user_view_of us2 ->
  option_map user_view_of (find_user email us1) =
  option_map user_view_of (find_user email us2).
Proof.
  revert us2; induction us1 as [|u1 us1 IH]; intros [|u2 us2] H; cbn [map] in H;
    try discriminate; [reflexivity|].
  assert (Hv : user_view_of u1 = user_view_of u2) by congruence.
  assert (Hr : map user_view_of us1 = map user_view_of us2) by congruence.
  cbn [find_user_by_id find_user].
  assert (emailAddress u1 = emailAddress u2) as He by exact (f_equal uv_emailAddress Hv).
  rewrite He; destruct (String.eqb (emailAddress u2) email); [simpl; rewrite Hv; reflexivity|].
  apply IH; exact Hr.
Qed.

Lemma course_view_of_views us1 us2 c :
  map user_view_of us1 = map user_view_of us2 ->
  course_view_of us1 c = course_view_of us2 c.
Proof.
  intros H; unfold course_view_of; rewrite (find_user_by_id_views (userId c) us1 us2 H);
    reflexivity.
Qed.

Lemma get_users_200 bdigest db_fault cred s r t :
  get_users_route bdigest db_fault cred s = (inr (Responded r), t) -> status r = 200%Z ->
  exists u, authenticates bdigest s cred u /\ r = json 200 (BUser (user_view_of u)).
Proof.
  unfold get_users_route; rewrite with_gate_eq; intros H Hst.
  gate_cases Eg; [discriminate| |].
  - inversion H; subst r0.
    destruct (gate_respond_401 _ _ _ _ _ _ Eg) as [-> _]; discriminate.
  - destruct (gate_next _ _ _ _ _ _ Eg) as [u [-> Hu]].
    unfold get_users_handler, ret in H; inversion H; subst.
    exists u; split; [exact Hu|reflexivity].
Qed.

(** C9: [GET /api/courses] and [GET /api/courses/:id] give the same
    response whatever the stored password hashes are: each course carries its
    owner as [{id, firstName, lastName, emailAddress}] only. A 200 of
    [GET /api/users] is exactly [{id, firstName, lastName, emailAddress}] of
    the authenticated user, and two 200 responses to the same request on two
    databases that differ only in password hashes are equal. *)
Theorem read_responses_hide_password db_fault s1 s2 :
  same_but_passwords s1 s2 ->
  fst (get_courses_route db_fault s1) = fst (get_courses_route db_fault s2) /\
  (forall id, fst (get_course_route db_fault id s1) = fst (get_course_route db_fault id s2)) /\
  (forall bdigest cred r t, get_users_route bdigest db_fault cred s1 = (inr (Responded r), t) ->
     status r = 200%Z ->
     exists u, authenticates bdigest s1 cred u /\
               r = json 200 (BUser (mkUserView (u_id u) (firstName u) (lastName u)
                                               (emailAddress u)))) /\
  (forall bdigest cred r1 r2 t1 t2,
     get_users_route bdigest db_fault cred s1 = (inr (Responded r1), t1) -> status r1 = 200%Z ->
     get_users_route bdigest db_fault cred s2 = (inr (Responded r2), t2) -> status r2 = 200%Z ->
     r1 = r2).
Proof.
  intros [Hu [Hc Hl]].
  destruct s1 as [us1 cs1 useq1 cseq1 lg1], s2 as [us2 cs2 useq2 cseq2 lg2];
    simpl in *; subst cs2 lg2.
  split; [|split; [|split]].
  - unfold get_courses_route, open_route, asyncHandler, get_courses_handler, db_call, emit,
      catch, bind, get_db, ret, throw; cbn.
    destruct (db_fault ECourseFindAll); [reflexivity|].
    rewrite (map_ext (course_view_of us1) (course_view_of us2)
               (fun c => course_view_of_views us1 us2 c Hu)).
    reflexivity.
  - intros id.
    unfold get_course_route, open_route, asyncHandler, get_course_handler, db_call, emit,
      catch, bind, get_db, ret, throw; cbn.
    destruct (db_fault (ECourseFindByPk id)); [reflexivity|].
    cbn [users courses].
    destruct (find_course id cs1) as [c|]; cbn; [|reflexivity].
    rewrite (course_view_of_views us1 us2 c Hu); reflexivity.
  - intros bdigest cred r t H Hst; exact (get_users_200 _ _ _ _ _ _ H Hst).
  - intros bdigest cred r1 r2 t1 t2 H1 S1 H2 S2.
    destruct (get_users_200 _ _ _ _ _ _ H1 S1) as [u1 [[c [Ec [E1 _]]] ->]].
    destruct (get_users_200 _ _ _ _ _ _ H2 S2) as [u2 [[c' [Ec' [E2 _]]] ->]].
    rewrite Ec in Ec'; injection Ec' as <-.
    pose proof (find_user_views (name c) us1 us2 Hu) as Hv; simpl in E1, E2.
    rewrite E1, E2 in Hv; cbn [option_map] in Hv; congruence.
Qed.

Lemma read_responses_hide_password_witness :
  same_but_passwords db0 db0_rehashed /\
  fst (get_courses_route no_fault db0) = fst (get_courses_route no_fault db0_rehashed) /\
  fst (get_course_route no_fault 5 db0) = fst (get_course_route no_fault 5 db0_rehashed).
Proof.
  assert (H : same_but_passwords db0 db0_rehashed)
    by (split; [reflexivity | split; reflexivity]).
  destruct (read_responses_hide_password no_fault db0 db0_rehashed H) as [H1 [H2 _]].
  split; [exact H | split; [exact H1 | exact (H2 5%Z)]].
Defined.

(** ** C4: the gate authenticates the first user with the given email *)

Lemma find_user_email email us u :
  find_user email us = Some u -> emailAddress u = email /\ In u us.
Proof.
  induction us as [|u' us IH]; simpl; [discriminate|].
  destruct (String.eqb (emailAddress u') email) eqn:E.
  - intros H; injection H as <-; apply String.eqb_eq in E; auto.
  - intros H; destruct (IH H); auto.
Qed.

(** C4 (what the gate does): when the storage call succeeds and the FIRST
    user whose [emailAddress] is the given name verifies the password, the
    gate calls [next()] with that user attached, sends no response itself, and
    only logs the lookup and an info line. *)
Theorem gate_authenticates_first_match bdigest db_fault c s u :
  db_fault (EUserFindOne (name c)) = None ->
  find_user (name c) (users s) = Some u ->
  compareSync bdigest (pass c) (password u) = inr true ->
  authenticateUser bdigest db_fault (Some c) s =
    (inr (Next (Some u)),
     add_log s [EUserFindOne (name c);
                EInfo ("Authentication is successful for user: " ++ emailAddress u)]) /\
  emailAddress u = name c.
Proof.
  intros Hf Hu Hc; rewrite authenticateUser_eq, Hf, Hu, Hc.
  split; [reflexivity | exact (proj1 (find_user_email _ _ _ Hu))].
Qed.

Lemma gate_authenticates_first_match_witness :
  authenticateUser toy_digest no_fault (Some alice_cred) db0 =
    (inr (Next (Some alice)),
     add_log db0 [EUserFindOne "alice@example.com";
                  EInfo ("Authentication is successful for user: " ++ "alice@example.com")]) /\
  emailAddress alice = "alice@example.com".
Proof.
  apply (gate_authenticates_first_match toy_digest no_fault alice_cred db0 alice);
    vm_compute; reflexivity.
Defined.

(** C4 failing input: [POST /api/users] accepts a second account for
    [alice@example.com] (the model declares no unique constraint on
    [emailAddress], so the [SequelizeUniqueConstraintError] branch is not
    taken for it). The new row's hash verifies ["two-pw"], yet the gate
    refuses [alice@example.com:two-pw] with 401: [User.findOne] returns the
    first row, Alice's original one. *)
Lemma duplicate_email_login_fails :
  fst (post_users_route toy_digest no_fault any_email plain rand_b alice_dup_body db0) =
    inr (Responded (mkResponse 201 (Some "/") BNone)) /\
  users db_dup = [alice; bob; alice_dup] /\
  emailAddress alice_dup = "alice@example.com" /\
  compareSync toy_digest "two-pw" (password alice_dup) = inr true /\
  fst (authenticateUser toy_digest no_fault (Some (mkCred "alice@example.com" "two-pw")) db_dup)
    = inr (Respond unauthorized).
Proof.
  split; [vm_compute; reflexivity|].
  split; [vm_compute; reflexivity|].
  split; [reflexivity|].
  split; vm_compute; reflexivity.
Qed.

(** ** Further properties of the routes *)

(** *** Table invariants: the monad combinators *)

Lemma preserves_ret {A} P (a : A) : preserves P (ret a).
Proof. intros s Hs; exact Hs. Qed.

Lemma preserves_throw {A} P f : preserves P (@throw A f).
Proof. intros s Hs; exact Hs. Qed.

Lemma preserves_get_db P : preserves P get_db.
Proof. intros s Hs; exact Hs. Qed.

Lemma preserves_emit P e : preserves P (emit e).
Proof. intros s Hs; exact Hs. Qed.

Lemma preserves_of_sum {A} P (r : fault + A) : preserves P (of_sum r).
Proof. destruct r; intros s Hs; exact Hs. Qed.

Lemma preserves_bind {A B} P (m : M A) (k : A -> M B) :
  preserves P m -> (forall a, preserves P (k a)) -> preserves P (bind m k).
Proof.
  intros Hm Hk s Hs; unfold bind; specialize (Hm s Hs).
  destruct (m s) as [[f|a] s']; simpl in *; [exact Hm|exact (Hk a s' Hm)].
Qed.

Lemma preserves_catch {A} P (m : M A) (h : fault -> M A) :
  preserves P m -> (forall f, preserves P (h f)) -> preserves P (catch m h).
Proof.
  intros Hm Hh s Hs; unfold catch; specialize (Hm s Hs).
  destruct (m s) as [[f|a] s']; simpl in *; [exact (Hh f s' Hm)|exact Hm].
Qed.

Lemma preserves_db_call {A} P db_fault e (m : M A) :
  preserves P m -> preserves P (db_call db_fault e m).
Proof.
  intros Hm; unfold db_call; apply preserves_bind; [apply preserves_emit|intros _].
  destruct (db_fault e); [apply preserves_throw|exact Hm].
Qed.

Ltac pres_step :=
  match goal with
  | |- preserves _ (bind _ _) => apply preserves_bind; [|intros ?]
  | |- preserves _ (catch _ _) => apply preserves_catch; [|intros ?]
  | |- preserves _ (ret _) => apply preserves_ret
  | |- preserves _ (throw _) => apply preserves_throw
  | |- preserves _ get_db => apply preserves_get_db
  | |- preserves _ (emit _) => apply preserves_emit
  | |- preserves _ (of_sum _) => apply preserves_of_sum
  | |- preserves _ (db_call _ _ _) => apply preserves_db_call
  | |- preserves _ (match ?x with _ => _ end) => destruct x
  end.

(** *** Keys after an [UPDATE] *)

(** The key of a row rewritten by [ch]: the last [SetId] of [ch], or, with
    none, its own key, which then is the [WHERE] key. *)
Lemma fold_apply_id ch r k0 k :
  fold_left (fun k a => match a with SetId k' => k' | _ => k end) ch k0 = Some k ->
  c_id (fold_left apply_assign ch r) = k \/
  (c_id (fold_left apply_assign ch r) = c_id r /\ k0 = Some k).
Proof.
  revert r k0; induction ch as [|a ch IH]; intros r k0 H; simpl in *; [right; auto|].
  destruct (IH (apply_assign r a) _ H) as [E|[E1 E2]]; [left; exact E|].
  destruct a as [[k'|]| | | | |]; simpl in *;
    first [discriminate | left; congruence | right; split; [exact E1|exact E2]].
Qed.

(** [course.update()] leaves the list of keys as it was: the [WHERE] key is
    the instance's key after [set], and the rows it matches keep it. *)
Lemma map_c_id_update_rows c ch cs :
  map c_id (update_rows (update_key c ch) ch cs) = map c_id cs.
Proof.
  unfold update_rows; destruct (update_key c ch) as [k|] eqn:Ek; [|reflexivity].
  rewrite map_map; apply map_ext; intros r.
  destruct (Z.eqb_spec (c_id r) k) as [E|E]; [|reflexivity].
  destruct (fold_apply_id ch r _ _ Ek) as [E'|[E' _]]; congruence.
Qed.

(** *** Table invariants: the storage calls *)

Lemma preserves_Course_create P db_fault b :
  (forall us cs c, P us cs -> find_course (c_id c) cs = None -> P us (cs ++ [c])%list) ->
  preserves P (Course_create db_fault b).
Proof.
  intros H s Hs; unfold Course_create, db_call, emit, bind, get_db, insert_course, ret, throw.
  destruct (b_title b), (b_description b), (b_userId b); try exact Hs.
  cbv beta iota zeta.
  destruct (db_fault _); [exact Hs|].
  match goal with |- context [find_course ?k ?cs] => destruct (find_course k cs) eqn:Ef end;
    [exact Hs|].
  apply H; [exact Hs|exact Ef].
Qed.

Lemma preserves_Course_update P db_fault c b :
  (forall us cs cs', P us cs -> map c_id cs' = map c_id cs -> P us cs') ->
  preserves P (Course_update db_fault c b).
Proof.
  intros H s Hs; rewrite Course_update_eq.
  destruct (course_update_nulls b); [|exact Hs].
  destruct (course_changes c b) as [|a l]; [exact Hs|].
  cbv beta iota zeta; destruct (db_fault _); [exact Hs|].
  apply (H _ (courses s)); [exact Hs|apply map_c_id_update_rows].
Qed.

Lemma preserves_Course_destroy P db_fault c :
  (forall us cs i, P us cs -> P us (filter (fun x => negb (Z.eqb (c_id x) i)) cs)) ->
  preserves P (Course_destroy db_fault c).
Proof.
  intros H s Hs; unfold Course_destroy, db_call, emit, bind, get_db, set_courses, ret, throw.
  destruct (db_fault _); simpl; [exact Hs|apply H; exact Hs].
Qed.

Lemma preserves_User_create P db_fault b :
  (forall us cs u, P us cs -> find_user_by_id (u_id u) us = None -> P (us ++ [u])%list cs) ->
  preserves P (User_create db_fault b).
Proof.
  intros H s Hs; unfold User_create, db_call, emit, bind, get_db, insert_user, ret, throw.
  destruct (ub_firstName b), (ub_lastName b), (ub_emailAddress b), (ub_password b);
    try exact Hs.
  cbv beta iota zeta.
  destruct (db_fault _); [exact Hs|].
  match goal with |- context [find_user_by_id ?k ?us] => destruct (find_user_by_id k us) eqn:Ef end;
    [exact Hs|].
  apply H; [exact Hs|exact Ef].
Qed.

Lemma preserves_authenticateUser P bdigest db_fault cred :
  preserves P (authenticateUser bdigest db_fault cred).
Proof.
  unfold authenticateUser, check_credentials, User_findOne, console_info, console_warn.
  repeat pres_step.
Qed.

Lemma preserves_with_gate P bdigest db_fault cred handler :
  (forall cu, preserves P (handler cu)) -> preserves P (with_gate bdigest db_fault cred handler).
Proof.
  intros H; unfold with_gate, asyncHandler.
  apply preserves_catch; [|intros; apply preserves_ret].
  apply preserves_bind; [apply preserves_authenticateUser|intros g].
  destruct g; repeat pres_step; apply H.
Qed.

(** Every route, for a property kept by the storage writes it makes. *)
Lemma preserves_read_routes P bdigest db_fault :
  (forall cred, preserves P (get_users_route bdigest db_fault cred)) /\
  preserves P (get_courses_route db_fault) /\
  (forall id, preserves P (get_course_route db_fault id)).
Proof.
  split; [|split].
  - intros cred; apply preserves_with_gate; intros cu; unfold get_users_handler;
      repeat pres_step.
  - unfold get_courses_route, open_route, asyncHandler, get_courses_handler; repeat pres_step.
  - intros id; unfold get_course_route, open_route, asyncHandler, get_course_handler;
      repeat pres_step.
Qed.

Lemma preserves_put_course_route P bdigest db_fault cred rq id b :
  (forall us cs cs', P us cs -> map c_id cs' = map c_id cs -> P us cs') ->
  preserves P (put_course_route bdigest db_fault cred rq id b).
Proof.
  intros Hu; apply preserves_with_gate; intros cu; unfold put_course_handler,
    Course_findByPk; repeat pres_step; apply preserves_Course_update; exact Hu.
Qed.

Lemma preserves_course_write_routes P bdigest db_fault :
  (forall us cs c, P us cs -> find_course (c_id c) cs = None -> P us (cs ++ [c])%list) ->
  (forall us cs cs', P us cs -> map c_id cs' = map c_id cs -> P us cs') ->
  (forall us cs i, P us cs -> P us (filter (fun x => negb (Z.eqb (c_id x) i)) cs)) ->
  (forall cred rq b, preserves P (post_courses_route bdigest db_fault cred rq b)) /\
  (forall cred rq id b, preserves P (put_course_route bdigest db_fault cred rq id b)) /\
  (forall cred id, preserves P (delete_course_route bdigest db_fault cred id)).
Proof.
  intros Hc Hu Hd; split; [|split].
  - intros cred rq b; apply preserves_with_gate; intros cu; unfold post_courses_handler;
      repeat pres_step; apply preserves_Course_create; exact Hc.
  - intros cred rq id b; apply preserves_put_course_route; exact Hu.
  - intros cred id; apply preserves_with_gate; intros cu; unfold delete_course_handler,
      Course_findByPk; repeat pres_step; apply preserves_Course_destroy; exact Hd.
Qed.

Lemma preserves_post_users_route P bdigest db_fault isEmail rq rb b :
  (forall us cs u, P us cs -> find_user_by_id (u_id u) us = None -> P (us ++ [u])%list cs) ->
  preserves P (post_users_route bdigest db_fault isEmail rq rb b).
Proof.
  intros H; unfold post_users_route, open_route, asyncHandler, post_users_handler.
  repeat pres_step; apply preserves_User_create; exact H.
Qed.

(** *** Fresh keys *)









(** X6: what each route never writes: the three read routes leave both tables
    as they were, the course routes never change the Users table, and
    [POST /api/users] never changes the Courses table. *)
Theorem routes_table_frame bdigest db_fault isEmail s :
  (forall cred, users (snd (get_users_route bdigest db_fault cred s)) = users s /\
                courses (snd (get_users_route bdigest db_fault cred s)) = courses s) /\
  (users (snd (get_courses_route db_fault s)) = users s /\
   courses (snd (get_courses_route db_fault s)) = courses s) /\
  (forall id, users (snd (get_course_route db_fault id s)) = users s /\
              courses (snd (get_course_route db_fault id s)) = courses s) /\
  (forall cred rq b, users (snd (post_courses_route bdigest db_fault cred rq b s)) = users s) /\
  (forall cred rq id b, users (snd (put_course_route bdigest db_fault cred rq id b s)) = users s) /\
  (forall cred id, users (snd (delete_course_route bdigest db_fault cred id s)) = users s) /\
  (forall rq rb b, courses (snd (post_users_route bdigest db_fault isEmail rq rb b s)) = courses s).
Proof.
  destruct (preserves_read_routes (tables_are (users s) (courses s)) bdigest db_fault)
    as [H1 [H2 H3]].
  destruct (preserves_course_write_routes (fun us _ => us = users s) bdigest db_fault)
    as [H4 [H5 H6]]; try (intros; assumption).
  assert (Hs : tables_are (users s) (courses s) (users s) (courses s)) by (split; reflexivity).
  split; [intros cred; exact (H1 cred s Hs)|].
  split; [exact (H2 s Hs)|].
  split; [intros id; exact (H3 id s Hs)|].
  split; [intros cred rq b; exact (H4 cred rq b s eq_refl)|].
  split; [intros cred rq id b; exact (H5 cred rq id b s eq_refl)|].
  split; [intros cred id; exact (H6 cred id s eq_refl)|].
  intros rq rb b; apply (preserves_post_users_route (fun _ cs => cs = courses s)); [|reflexivity].
  intros; assumption.
Qed.

(** *** Validation *)








Lemma truthy_accepts v :
  (forall vm, In vm [(exists_truthy, EmptyString)] -> fst vm v = true) <->
  exists x, v = Val x /\ nonempty x = true.
Proof.
  destruct v as [| |x]; simpl; split;
    try (intros H; specialize (H _ (or_introl eq_refl)); discriminate);
    try (intros [y [E _]]; discriminate).
  - intros H; exists x; split; [reflexivity|exact (H _ (or_introl eq_refl))].
  - intros [y [E Hy]] vm [<-|[]]; injection E as <-; exact Hy.
Qed.







(** *** Fresh keys *)

Lemma fold_max_ge ks a :
  (a <= fold_left Z.max ks a)%Z /\ (forall x, In x ks -> x <= fold_left Z.max ks a)%Z.
Proof.
  revert a; induction ks as [|k ks IH]; intros a; simpl; [split; [lia|intros _ []]|].
  destruct (IH (Z.max a k)) as [H1 H2]; split; [lia|].
  intros x [<-|Hx]; [lia|exact (H2 x Hx)].
Qed.

Lemma next_rowid_gt seq ks k : In k ks -> (k < next_rowid seq ks)%Z.
Proof.
  unfold next_rowid, max_key; destruct ks as [|k0 ks]; [intros []|].
  destruct (fold_max_ge ks k0) as [H1 H2].
  intros [<-|Hk]; [lia|specialize (H2 k Hk); lia].
Qed.

Lemma next_rowid_gt_seq seq ks : (seq < next_rowid seq ks)%Z.
Proof. unfold next_rowid; lia. Qed.

Lemma find_course_absent id cs :
  (forall c, In c cs -> c_id c <> id) -> find_course id cs = None.
Proof.
  induction cs as [|x cs IH]; simpl; intros H; [reflexivity|].
  destruct (Z.eqb_spec (c_id x) id) as [E|E]; [exfalso; exact (H x (or_introl eq_refl) E)|].
  apply IH; intros c Hc; exact (H c (or_intror Hc)).
Qed.

Lemma find_user_by_id_absent id us :
  (forall u, In u us -> u_id u <> id) -> find_user_by_id id us = None.
Proof.
  induction us as [|x us IH]; simpl; intros H; [reflexivity|].
  destruct (Z.eqb_spec (u_id x) id) as [E|E]; [exfalso; exact (H x (or_introl eq_refl) E)|].
  apply IH; intros u Hu; exact (H u (or_intror Hu)).
Qed.

Lemma find_course_next seq cs : find_course (next_rowid seq (map c_id cs)) cs = None.
Proof.
  apply find_course_absent; intros c Hc.
  pose proof (next_rowid_gt seq (map c_id cs) (c_id c) (in_map c_id cs c Hc)); lia.
Qed.

Lemma find_user_by_id_next seq us : find_user_by_id (next_rowid seq (map u_id us)) us = None.
Proof.
  apply find_user_by_id_absent; intros u Hu.
  pose proof (next_rowid_gt seq (map u_id us) (u_id u) (in_map u_id us u Hu)); lia.
Qed.

(** *** [POST /api/users] *)

Lemma base64_encode_fault b n f : base64_encode b n = inl f -> f_name f = "Error".
Proof.
  unfold base64_encode; destruct (_ || _); intros H; inversion H; reflexivity.
Qed.

Lemma bcrypt_hash_fault bdigest s salt f : bcrypt_hash bdigest s salt = inl f -> f_name f = "Error".
Proof.
  unfold bcrypt_hash; cbv zeta.
  repeat match goal with
  | |- (match ?x with _ => _ end) = _ -> _ => destruct x eqn:?
  end;
  intros H; inversion H; subst; try reflexivity.
  eapply base64_encode_fault; eassumption.
Qed.

(** bcryptjs's errors are plain [Error]s. *)
Lemma hashSync_fault bdigest rb v f : hashSync bdigest rb v = inl f -> f_name f = "Error".
Proof.
  unfold hashSync, genSaltSync.
  destruct (base64_encode rb 16) eqn:E; [intros H; inversion H; subst; eapply base64_encode_fault; eassumption|].
  destruct v; [intros H; inversion H; reflexivity..|apply bcrypt_hash_fault].
Qed.

(** X2: a [POST /api/users] body that fails validation is answered 400 with the
    list of validation messages, and the state is left exactly as it was: no
    password is hashed, no storage call is made, nothing is logged. *)
Theorem post_users_invalid_body_400 bdigest db_fault isEmail rq rb b s :
  user_errors isEmail rq b <> [] ->
  post_users_route bdigest db_fault isEmail rq rb b s =
    (inr (Responded (json 400 (BErrors (user_errors isEmail rq b)))), s).
Proof.
  intros H; unfold post_users_route, open_route, asyncHandler, post_users_handler, catch,
    bind, ret.
  destruct (user_errors isEmail rq b) as [|e es]; [contradiction|reflexivity].
Qed.

Lemma post_users_invalid_body_400_witness :
  user_errors any_email plain nameless_body <> [] /\
  post_users_route toy_digest no_fault any_email plain rand_a nameless_body db0 =
    (inr (Responded (json 400 (BErrors [needs_value "firstName"]))), db0).
Proof.
  assert (H : user_errors any_email plain nameless_body <> []) by (vm_compute; discriminate).
  split; [exact H|].
  exact (post_users_invalid_body_400 toy_digest no_fault any_email plain rand_a nameless_body
           db0 H).
Defined.

Ltac post_500 :=
  cbn; eexists; split; [reflexivity|]; intros _; split; [reflexivity|split; [reflexivity|]];
  right; right; eexists; split; [reflexivity|]; cbn; discriminate.

(** X3: [POST /api/users] always ends in a response (the handler's rethrow is
    caught by [asyncHandler]), and any answer other than 201 leaves both
    tables unchanged: it is the 400 of the validation, a 422 that only a
    [SequelizeUniqueConstraintError] of [User.create] produces (the storage
    layer's, or the primary key's when the body's [id] is taken), or a 500
    carrying an error of another name. *)
Theorem post_users_failure_keeps_tables bdigest db_fault isEmail rq rb b s :
  exists res,
    fst (post_users_route bdigest db_fault isEmail rq rb b s) = inr (Responded res) /\
    (status res <> 201%Z ->
     users (snd (post_users_route bdigest db_fault isEmail rq rb b s)) = users s /\
     courses (snd (post_users_route bdigest db_fault isEmail rq rb b s)) = courses s /\
     (res = json 400 (BErrors (user_errors isEmail rq b)) \/
      (res = json 422 (BMessage user_taken_message) /\
       ((exists u f, db_fault (EUserCreate u) = Some f /\
                     f_name f = "SequelizeUniqueConstraintError") \/
        (exists k, explicit_key (ub_id b) = Some k /\ find_user_by_id k (users s) <> None))) \/
      (exists f, res = json 500 (BError f) /\ f_name f <> "SequelizeUniqueConstraintError"))).
Proof.
  unfold post_users_route, open_route, asyncHandler, post_users_handler, User_create,
    db_call, emit, of_sum, get_db, insert_user, catch, bind, ret, throw.
  destruct (negb (Nat.eqb (length (user_errors isEmail rq b)) 0)).
  { cbn; eexists; split; [reflexivity|]; intros _; split; [reflexivity|split; [reflexivity|]].
    left; reflexivity. }
  destruct (hashSync bdigest rb (ub_password b)) as [f|h] eqn:Eh; cbv beta iota zeta.
  { rewrite (hashSync_fault _ _ _ _ Eh); cbn.
    eexists; split; [reflexivity|]; intros _; split; [reflexivity|split; [reflexivity|]].
    right; right; exists f; split; [reflexivity|rewrite (hashSync_fault _ _ _ _ Eh); discriminate]. }
  cbn [set_password ub_firstName ub_lastName ub_emailAddress ub_password ub_id].
  destruct (ub_firstName b) as [| |fn]; [post_500 ..|].
  destruct (ub_lastName b) as [| |ln]; [post_500 ..|].
  destruct (ub_emailAddress b) as [| |em]; [post_500 ..|].
  cbv beta iota zeta.
  destruct (explicit_key (ub_id b)) as [k|] eqn:Ex.
  - destruct (db_fault (EUserCreate (mkUser k fn ln em h))) as [f|] eqn:Ef; cbv beta iota.
    + destruct (String.eqb_spec (f_name f) "SequelizeUniqueConstraintError") as [En|En]; cbn.
      * eexists; split; [reflexivity|]; intros _; split; [reflexivity|split; [reflexivity|]].
        right; left; split; [reflexivity|]; left; exists (mkUser k fn ln em h), f.
        split; [exact Ef|exact En].
      * eexists; split; [reflexivity|]; intros _; split; [reflexivity|split; [reflexivity|]].
        right; right; exists f; split; [reflexivity|exact En].
    + destruct (find_user_by_id k (users s)) as [u|] eqn:Ek; cbn.
      * eexists; split; [reflexivity|]; intros _; split; [reflexivity|split; [reflexivity|]].
        right; left; split; [reflexivity|]; right; exists k; split; [reflexivity|].
        rewrite Ek; discriminate.
      * eexists; split; [reflexivity|]; intros Hst; exfalso; apply Hst; reflexivity.
  - set (k := next_rowid (user_seq s) (map u_id (users s))).
    destruct (db_fault (EUserCreate (mkUser k fn ln em h))) as [f|] eqn:Ef; cbv beta iota.
    + destruct (String.eqb_spec (f_name f) "SequelizeUniqueConstraintError") as [En|En]; cbn.
      * eexists; split; [reflexivity|]; intros _; split; [reflexivity|split; [reflexivity|]].
        right; left; split; [reflexivity|]; left; exists (mkUser k fn ln em h), f.
        split; [exact Ef|exact En].
      * eexists; split; [reflexivity|]; intros _; split; [reflexivity|split; [reflexivity|]].
        right; right; exists f; split; [reflexivity|exact En].
    + assert (Hk : find_user_by_id k (users s) = None) by apply find_user_by_id_next.
      rewrite Hk; cbn.
      eexists; split; [reflexivity|]; intros Hst; exfalso; apply Hst; reflexivity.
Qed.

(** *** Course table lookups after a write *)

Lemma find_course_snoc id cs c :
  find_course id cs = None -> c_id c = id -> find_course id (cs ++ [c])%list = Some c.
Proof.
  intros H Hid; induction cs as [|x cs IH]; simpl in *.
  - rewrite Hid, Z.eqb_refl; reflexivity.
  - destruct (Z.eqb (c_id x) id); [discriminate|exact (IH H)].
Qed.

Lemma find_course_update_rows_other i id ch cs :
  i <> id -> Forall no_set_id ch ->
  find_course i (update_rows (Some id) ch cs) = find_course i cs.
Proof.
  intros Hi Hch; unfold update_rows; induction cs as [|x cs IH]; simpl; [reflexivity|].
  destruct (Z.eqb_spec (c_id x) id) as [E|E]; simpl.
  - rewrite fold_id_no_set_id by exact Hch.
    destruct (Z.eqb_spec (c_id x) i) as [E'|E']; [congruence|exact IH].
  - destruct (Z.eqb (c_id x) i); [reflexivity|exact IH].
Qed.

Lemma find_course_filter_other i j cs :
  i <> j -> find_course i (filter (fun x => negb (Z.eqb (c_id x) j)) cs) = find_course i cs.
Proof.
  intros Hij; induction cs as [|x cs IH]; simpl; [reflexivity|].
  destruct (Z.eqb_spec (c_id x) j) as [E|E]; simpl.
  - destruct (Z.eqb_spec (c_id x) i) as [E'|E']; [congruence|exact IH].
  - destruct (Z.eqb (c_id x) i); [reflexivity|exact IH].
Qed.

Lemma find_course_filter_same j cs :
  find_course j (filter (fun x => negb (Z.eqb (c_id x) j)) cs) = None.
Proof.
  induction cs as [|x cs IH]; simpl; [reflexivity|].
  destruct (Z.eqb (c_id x) j) eqn:E; simpl; [exact IH|rewrite E; exact IH].
Qed.


Lemma find_course_views id us cs :
  find (fun v => Z.eqb (cv_id v) id) (map (course_view_of us) cs) =
  option_map (course_view_of us) (find_course id cs).
Proof.
  induction cs as [|c cs IH]; simpl; [reflexivity|].
  destruct (Z.eqb (c_id c) id); [reflexivity|exact IH].
Qed.

(** *** Route runs *)

(** The gate lets an authenticated user through, only logging. *)
Lemma gate_passes bdigest db_fault cred s u :
  (forall e, db_fault e = None) -> authenticates bdigest s cred u ->
  exists es, authenticateUser bdigest db_fault cred s = (inr (Next (Some u)), add_log s es).
Proof.
  intros Hno [c [-> [Hf Hc]]]; rewrite authenticateUser_eq, Hno, Hf, Hc.
  eexists; reflexivity.
Qed.

Lemma authenticates_same_users bdigest s s' cred u :
  users s' = users s -> authenticates bdigest s cred u -> authenticates bdigest s' cred u.
Proof. unfold authenticates; intros ->; exact (fun H => H). Qed.

Lemma get_course_route_fst db_fault id s :
  fst (get_course_route db_fault id s) =
  inr (Responded
         match db_fault (ECourseFindByPk id) with
         | Some f => json 500 (BError f)
         | None =>
             match find_course id (courses s) with
             | Some c => json 200 (BCourse (course_view_of (users s) c))
             | None => json 404 (BMessage course_missing_message)
             end
         end).
Proof.
  unfold get_course_route, open_route, asyncHandler, get_course_handler, db_call, emit,
    catch, bind, get_db, ret, throw.
  destruct (db_fault (ECourseFindByPk id)); cbn; [reflexivity|].
  destruct (find_course id (courses s)); reflexivity.
Qed.

(** X7: with a working storage layer, an authenticated [POST /api/courses]
    whose body passes validation, gives a title, a description and a
    [userId], and no [id], is answered 201 with [Location: /courses/<id>],
    where [id] is the next AUTOINCREMENT key: above both the table's
    sequence counter and every key in the table, so no existing course has
    it, and it becomes the new counter. The course, with the body's fields
    (its [userId] taken from the body), is appended to the table, and a
    following [GET /api/courses/<id>] returns it with its owner. *)
Theorem post_course_then_get bdigest db_fault cred rq b u t d uid s :
  (forall e, db_fault e = None) -> authenticates bdigest s cred u ->
  course_errors_post rq b = [] ->
  b_title b = Val t -> b_description b = Val d -> b_userId b = Val uid ->
  explicit_key (b_id b) = None ->
  let k := next_rowid (course_seq s) (map c_id (courses s)) in
  let c := mkCourse k t d (nullable (b_estimatedTime b)) (nullable (b_materialsNeeded b)) uid in
  exists s',
    post_courses_route bdigest db_fault cred rq b s =
      (inr (Responded (mkResponse 201 (Some ("/courses/" ++ string_of_Z k)) BNone)), s') /\
    users s' = users s /\ courses s' = (courses s ++ [c])%list /\
    find_course k (courses s) = None /\ (course_seq s < k)%Z /\ course_seq s' = k /\
    fst (get_course_route db_fault k s') =
      inr (Responded (json 200 (BCourse (course_view_of (users s) c)))).
Proof.
  intros Hno Ha Hv Ht Hd Hu Hx; cbv zeta.
  destruct (gate_passes _ _ _ _ _ Hno Ha) as [es Eg].
  unfold post_courses_route; rewrite with_gate_eq, Eg.
  unfold post_courses_handler, Course_create, db_call, emit, catch, bind, get_db,
    insert_course, ret, throw.
  rewrite Hv, Ht, Hd, Hu; cbn [length Nat.eqb negb]; cbv beta iota zeta.
  cbn [add_log users courses user_seq course_seq log].
  rewrite Hx, Hno.
  pose proof (find_course_next (course_seq s) (courses s)) as Hfree.
  pose proof (next_rowid_gt_seq (course_seq s) (map c_id (courses s))) as Hgt.
  set (k := next_rowid (course_seq s) (map c_id (courses s))) in *.
  rewrite Hfree; cbn.
  eexists; split; [reflexivity|].
  split; [reflexivity|]. split; [reflexivity|]. split; [first [exact Hfree|reflexivity]|].
  split; [exact Hgt|]. split; [cbn [course_seq]; unfold k in *; lia|].
  rewrite get_course_route_fst, Hno; cbn [courses users].
  rewrite find_course_snoc by (exact Hfree || reflexivity); reflexivity.
Qed.

Lemma post_course_then_get_witness :
  exists s',
    post_courses_route toy_digest no_fault (Some alice_cred) plain alice_course db0 =
      (inr (Responded (mkResponse 201 (Some ("/courses/" ++ string_of_Z 7)) BNone)), s') /\
    course_seq s' = 7%Z /\
    fst (get_course_route no_fault 7 s') =
      inr (Responded (json 200 (BCourse (course_view_of (users db0)
             (mkCourse 7 "Sets" "Zermelo" None (Some "paper") 1))))).
Proof.
  assert (Ha : authenticates toy_digest db0 (Some alice_cred) alice)
    by (exists alice_cred; split; [reflexivity|split; [reflexivity|vm_compute; reflexivity]]).
  destruct (post_course_then_get toy_digest no_fault (Some alice_cred) plain alice_course alice
              "Sets" "Zermelo" 1 db0 (fun _ => eq_refl) Ha ltac:(vm_compute; reflexivity)
              eq_refl eq_refl eq_refl eq_refl) as [s' [E1 [_ [_ [_ [_ [E2 E3]]]]]]].
  exists s'; split; [exact E1|split; [exact E2|exact E3]].
Defined.

(** [Course.create] refusing a body with a NULL non-null attribute: the 500
    of [asyncHandler], with no table touched. *)
Lemma post_course_nulls_500 bdigest db_fault cred rq b u s :
  (forall e, db_fault e = None) -> authenticates bdigest s cred u ->
  course_errors_post rq b = [] -> course_create_nulls b <> [] ->
  exists s',
    post_courses_route bdigest db_fault cred rq b s =
      (inr (Responded (json 500 (BError (not_null_violation "Course" (course_create_nulls b))))),
       s') /\
    users s' = users s /\ courses s' = courses s.
Proof.
  intros Hno Ha Hv Hn.
  destruct (gate_passes _ _ _ _ _ Hno Ha) as [es Eg].
  unfold post_courses_route; rewrite with_gate_eq, Eg.
  unfold post_courses_handler, Course_create, db_call, emit, catch, bind, get_db,
    insert_course, ret, throw.
  rewrite Hv; cbn [length Nat.eqb negb].
  destruct (b_title b) eqn:Et; destruct (b_description b) eqn:Ed; destruct (b_userId b) eqn:Eu;
    try (eexists; split; [reflexivity|split; reflexivity]).
  exfalso; apply Hn; unfold course_create_nulls; rewrite Et, Ed, Eu; reflexivity.
Qed.

(** X8: an authenticated [POST /api/courses] whose body passes validation
    but carries no [userId] (absent or [null]) is refused by [Course.create]
    (the foreign key is [allowNull: false]): [asyncHandler] answers 500 with
    its notNull violation, which lists [userId], and both tables are
    unchanged. *)
Theorem post_course_without_userId_500 bdigest db_fault cred rq b u s :
  (forall e, db_fault e = None) -> authenticates bdigest s cred u ->
  course_errors_post rq b = [] -> is_nullish (b_userId b) = true ->
  In "userId" (course_create_nulls b) /\
  exists s',
    post_courses_route bdigest db_fault cred rq b s =
      (inr (Responded (json 500 (BError (not_null_violation "Course" (course_create_nulls b))))),
       s') /\
    users s' = users s /\ courses s' = courses s.
Proof.
  intros Hno Ha Hv Hu.
  assert (Hin : In "userId" (course_create_nulls b)).
  { unfold course_create_nulls; rewrite Hu.
    apply in_or_app; right; apply in_or_app; right; left; reflexivity. }
  split; [exact Hin|].
  apply (post_course_nulls_500 bdigest db_fault cred rq b u s Hno Ha Hv).
  intros E; rewrite E in Hin; exact Hin.
Qed.

Lemma post_course_without_userId_500_witness :
  In "userId" (course_create_nulls ownerless_course) /\
  exists s',
    post_courses_route toy_digest no_fault (Some alice_cred) plain ownerless_course db0 =
      (inr (Responded (json 500 (BError (not_null_violation "Course" ["userId"])))), s') /\
    users s' = users db0 /\ courses s' = courses db0.
Proof.
  apply (post_course_without_userId_500 toy_digest no_fault (Some alice_cred) plain
           ownerless_course alice db0 (fun _ => eq_refl)); [|vm_compute; reflexivity|reflexivity].
  exists alice_cred; split; [reflexivity|split; [reflexivity|vm_compute; reflexivity]].
Defined.

(** X14: the validators read [title] from the body, cookies, headers,
    params or query, but [Course.create] reads the body only: an
    authenticated [POST /api/courses] whose title passes validation from
    another location while the body has none is answered 500 with a notNull
    violation listing [title], and both tables are unchanged. *)
Theorem post_course_title_elsewhere_500 bdigest db_fault cred rq b u s :
  (forall e, db_fault e = None) -> authenticates bdigest s cred u ->
  course_errors_post rq b = [] -> b_title b = Absent ->
  In "title" (course_create_nulls b) /\
  exists s',
    post_courses_route bdigest db_fault cred rq b s =
      (inr (Responded (json 500 (BError (not_null_violation "Course" (course_create_nulls b))))),
       s') /\
    users s' = users s /\ courses s' = courses s.
Proof.
  intros Hno Ha Hv Ht.
  assert (Hin : In "title" (course_create_nulls b))
    by (unfold course_create_nulls; rewrite Ht; left; reflexivity).
  split; [exact Hin|].
  apply (post_course_nulls_500 bdigest db_fault cred rq b u s Hno Ha Hv).
  intros E; rewrite E in Hin; exact Hin.
Qed.

Lemma post_course_title_elsewhere_500_witness :
  course_errors_post title_header headed_course = [] /\
  exists s',
    post_courses_route toy_digest no_fault (Some alice_cred) title_header headed_course db0 =
      (inr (Responded (json 500 (BError (not_null_violation "Course" ["title"])))), s') /\
    users s' = users db0 /\ courses s' = courses db0.
Proof.
  assert (Hv : course_errors_post title_header headed_course = []) by (vm_compute; reflexivity).
  split; [exact Hv|].
  apply (post_course_title_elsewhere_500 toy_digest no_fault (Some alice_cred) title_header
           headed_course alice db0 (fun _ => eq_refl)); [|exact Hv|reflexivity].
  exists alice_cred; split; [reflexivity|split; [reflexivity|vm_compute; reflexivity]].
Defined.

(** X9: with a working storage layer, an authenticated owner's
    [PUT /api/courses/:id] ([id] not 0) with a body that passes validation
    and does not set [userId] to [null] is answered 204: the row under [id]
    now holds the body's fields over the stored ones (an absent field keeps
    its value, a [null] clears a nullable one), every other key looks up the
    same row as before, the Users table is unchanged, and a following
    [GET /api/courses/:id] returns the updated course. *)
Theorem put_course_then_get bdigest db_fault cred rq id b u c s :
  (forall e, db_fault e = None) -> authenticates bdigest s cred u -> id <> 0%Z ->
  course_errors_put rq id b = [] -> find_course id (courses s) = Some c ->
  userId c = u_id u -> is_null (b_userId b) = false ->
  let c' := mkCourse id (merge (b_title b) (title c)) (merge (b_description b) (description c))
              (merge_nullable (b_estimatedTime b) (estimatedTime c))
              (merge_nullable (b_materialsNeeded b) (materialsNeeded c))
              (merge (b_userId b) (userId c)) in
  exists s',
    put_course_route bdigest db_fault cred rq id b s = (inr (Responded (end_ 204)), s') /\
    users s' = users s /\
    find_course id (courses s') = Some c' /\
    (forall i, i <> id -> find_course i (courses s') = find_course i (courses s)) /\
    fst (get_course_route db_fault id s') =
      inr (Responded (json 200 (BCourse (course_view_of (users s) c')))).
Proof.
  intros Hno Ha Hid Hv Hc Ho Hu c'.
  destruct (gate_passes _ _ _ _ _ Hno Ha) as [es Eg].
  assert (Hn : course_update_nulls b = []).
  { destruct (course_errors_not_null _ _ _ _ Hv) as [Ht Hd].
    unfold course_update_nulls; rewrite Ht, Hd, Hu; reflexivity. }
  pose proof (find_course_id _ _ _ Hc) as Hcid.
  assert (Hc1 : find_course id (courses (add_log s es)) = Some c) by exact Hc.
  destruct (put_owner_run db_fault _ u id b c (add_log s es) Hno Hv Hc1 Ho Hn) as [E1 [E2 E3]].
  pose proof (put_owner_row db_fault rq u id b c (add_log s es) Hno Hid Hv Hc1 Ho Hn) as E4.
  unfold put_course_route; rewrite with_gate_eq, Eg; cbv beta.
  destruct (put_course_handler db_fault (course_errors_put rq id b) (Some u) id b (add_log s es))
    as [r s1]; cbn in E1, E2, E3, E4; subst r.
  exists s1; split; [reflexivity|].
  split; [exact E2|]. split; [exact E4|].
  split.
  - intros i Hi; rewrite E3, update_key_nonzero, Hcid by congruence.
    apply find_course_update_rows_other; [exact Hi|apply course_changes_no_id; congruence].
  - rewrite get_course_route_fst, Hno, E4, E2; reflexivity.
Qed.

Lemma put_course_then_get_witness :
  exists s',
    put_course_route toy_digest no_fault (Some alice_cred) plain 6 retitle db0 =
      (inr (Responded (end_ 204)), s') /\
    fst (get_course_route no_fault 6 s') =
      inr (Responded (json 200 (BCourse (course_view_of (users db0)
             (mkCourse 6 "Logic II" "More proofs" None None 1))))).
Proof.
  assert (Ha : authenticates toy_digest db0 (Some alice_cred) alice)
    by (exists alice_cred; split; [reflexivity|split; [reflexivity|vm_compute; reflexivity]]).
  destruct (put_course_then_get toy_digest no_fault (Some alice_cred) plain 6 retitle alice
              course6 db0 (fun _ => eq_refl) Ha ltac:(discriminate)
              ltac:(vm_compute; reflexivity) eq_refl eq_refl eq_refl)
    as [s' [E1 [_ [_ [_ E2]]]]].
  exists s'; split; [exact E1|exact E2].
Defined.

(** X10: with a working storage layer, an authenticated owner's
    [DELETE /api/courses/:id] is answered 204 and removes the course: every
    other key looks up the same row as before, the Users table is unchanged,
    and afterwards both [GET /api/courses/:id] and a repeated
    [DELETE /api/courses/:id] answer 404. *)
Theorem delete_course_then_404 bdigest db_fault cred id u c s :
  (forall e, db_fault e = None) -> authenticates bdigest s cred u ->
  find_course id (courses s) = Some c -> userId c = u_id u ->
  exists s',
    delete_course_route bdigest db_fault cred id s = (inr (Responded (end_ 204)), s') /\
    users s' = users s /\
    (forall i, i <> id -> find_course i (courses s') = find_course i (courses s)) /\
    fst (get_course_route db_fault id s') =
      inr (Responded (json 404 (BMessage course_missing_message))) /\
    fst (delete_course_route bdigest db_fault cred id s') =
      inr (Responded (json 404 (BMessage not_in_db_message))).
Proof.
  intros Hno Ha Hc Ho.
  destruct (gate_passes _ _ _ _ _ Hno Ha) as [es Eg].
  pose proof (find_course_id _ _ _ Hc) as Hid.
  unfold delete_course_route; rewrite with_gate_eq, Eg; cbv beta.
  rewrite delete_course_handler_eq, !Hno; cbn [add_log users courses].
  rewrite Hc, Ho, Z.eqb_refl, Hno.
  eexists; split; [reflexivity|]; cbn [users courses].
  split; [reflexivity|].
  split; [intros i Hi; rewrite Hid; apply find_course_filter_other; exact Hi|].
  split; [rewrite get_course_route_fst, Hno; cbn [courses]; rewrite Hid, find_course_filter_same;
          reflexivity|].
  match goal with |- context [with_gate _ _ _ _ ?s2] =>
    assert (Ha' : authenticates bdigest s2 cred u)
      by (apply (authenticates_same_users bdigest s); [reflexivity|exact Ha]);
    destruct (gate_passes _ _ _ _ _ Hno Ha') as [es2 Eg2]; rewrite with_gate_eq, Eg2
  end.
  cbv beta; rewrite delete_course_handler_eq, Hno; cbn [add_log courses].
  rewrite Hid, find_course_filter_same; reflexivity.
Qed.

Lemma delete_course_then_404_witness :
  exists s',
    delete_course_route toy_digest no_fault (Some bob_cred) 5 db0 =
      (inr (Responded (end_ 204)), s') /\
    fst (get_course_route no_fault 5 s') =
      inr (Responded (json 404 (BMessage course_missing_message))).
Proof.
  assert (Ha : authenticates toy_digest db0 (Some bob_cred) bob)
    by (exists bob_cred; split; [reflexivity|split; [reflexivity|vm_compute; reflexivity]]).
  destruct (delete_course_then_404 toy_digest no_fault (Some bob_cred) 5 bob course5 db0
              (fun _ => eq_refl) Ha eq_refl eq_refl) as [s' [E1 [_ [_ [E2 _]]]]].
  exists s'; split; [exact E1|exact E2].
Defined.



(** X12: a user row whose stored password is not a 60-character bcrypt string
    (a plaintext password, say) can never log in: [compareSync] answers false
    without hashing, so the gate answers 401, whatever password is supplied,
    even that very string. *)
Theorem gate_rejects_non_bcrypt_password bdigest db_fault c s u :
  db_fault (EUserFindOne (name c)) = None ->
  find_user (name c) (users s) = Some u -> String.length (password u) <> 60%nat ->
  authenticateUser bdigest db_fault (Some c) s =
    (inr (Respond unauthorized),
     add_log s [EUserFindOne (name c);
                EWarn ("User " ++ emailAddress u ++ " is not authenticated.")]).
Proof.
  intros Hf Hu Hl; rewrite authenticateUser_eq, Hf, Hu; unfold compareSync.
  destruct (Nat.eqb_spec (String.length (password u)) 60); [contradiction|reflexivity].
Qed.

Lemma gate_rejects_non_bcrypt_password_witness :
  authenticateUser toy_digest no_fault (Some (mkCred "dave@example.com" "dave-pw"))
    (mkDb [dave] [] 4 0 []) =
    (inr (Respond unauthorized),
     add_log (mkDb [dave] [] 4 0 []) [EUserFindOne "dave@example.com";
       EWarn ("User " ++ "dave@example.com" ++ " is not authenticated.")]).
Proof.
  exact (gate_rejects_non_bcrypt_password toy_digest no_fault
           (mkCred "dave@example.com" "dave-pw") (mkDb [dave] [] 4 0 []) dave eq_refl eq_refl
           ltac:(discriminate)).
Defined.

(** X13: the two read endpoints agree: with a working storage layer,
    [GET /api/courses] answers 200 with a list, and [GET /api/courses/:id]
    answers 200 with the first entry of that list whose [id] is [:id], or 404
    when the list has none. *)
Theorem get_course_agrees_with_list db_fault id s :
  db_fault ECourseFindAll = None -> db_fault (ECourseFindByPk id) = None ->
  exists l,
    fst (get_courses_route db_fault s) = inr (Responded (json 200 (BCourses l))) /\
    fst (get_course_route db_fault id s) =
      inr (Responded (match find (fun v => Z.eqb (cv_id v) id) l with
                      | Some v => json 200 (BCourse v)
                      | None => json 404 (BMessage course_missing_message)
                      end)).
Proof.
  intros H1 H2.
  exists (map (course_view_of (users s)) (courses s)); split.
  - unfold get_courses_route, open_route, asyncHandler, get_courses_handler, db_call, emit,
      catch, bind, get_db, ret, throw; rewrite H1; reflexivity.
  - rewrite get_course_route_fst, H2, find_course_views.
    destruct (find_course id (courses s)); reflexivity.
Qed.

Lemma get_course_agrees_with_list_witness :
  exists l,
    fst (get_courses_route no_fault db0) = inr (Responded (json 200 (BCourses l))) /\
    fst (get_course_route no_fault 6 db0) =
      inr (Responded (match find (fun v => Z.eqb (cv_id v) 6) l with
                      | Some v => json 200 (BCourse v)
                      | None => json 404 (BMessage course_missing_message)
                      end)).
Proof. exact (get_course_agrees_with_list no_fault 6 db0 eq_refl eq_refl). Defined.
